(** * Build-and-launch orchestration of pkg/cli/virtualizers.go

    A shallow embedding of the five orchestration entry points
    ([runVMware], [runFirecracker], [runHyperV], [runVirtualBox], [runQEMU]),
    of [saveDisk] and of [buildFirecracker], over an explicit world: the
    file system, the open file handles, the package-level address queue
    [ips], the configuration object the caller passes by pointer, and the
    chronological trace of the calls made to the operating system and to
    the external collaborators.

    What lies outside the file is modelled as follows. The answers of the
    host and of the collaborators (is the backend installed, does the build
    fail, what does the running virtualizer leave on disk) come from an
    environment [Env], over which the theorems quantify. The calls of
    package [os] act on a map from paths to nodes: [os.Remove] fails on an
    absent path and on a directory that has entries, [os.RemoveAll] removes
    a whole tree, [os.Rename] fails when the source is absent or the
    destination cannot be written, a second [Close] of a file returns an
    error. The queue of package [goque] refuses a dequeue once it is closed
    or empty; it is a database kept on disk, and what opening it does to
    the file system is an answer of the environment as well. *)

From stdpp Require Import gmap strings list fin_maps.

(** ** Errors and results *)

(** A Go [error] is modelled by its message; [nil] is [None]. *)
Definition error := string.

Inductive result (A : Type) : Type :=
| Ok (a : A)
| Err (e : error).

Arguments Ok {A} a.

Arguments Err {A} e.

Definition is_ok {A} (r : result A) : bool :=
  match r with Ok _ => true | Err _ => false end.

(** The result of a Go function whose only return value is an [error]. *)
Definition of_error (e : option error) : result unit :=
  match e with None => Ok tt | Some m => Err m end.

(** ** Paths and the file system *)

Inductive node := File | Dir.

#[global] Instance node_eq_dec : EqDecision node.
Proof. solve_decision. Defined.

(** [filepath.Join] of a clean directory and a name. *)
Definition Join (dir name : string) : string := dir +:+ "/" +:+ name.

(** [in_dir d p]: the path [p] lies strictly below the directory [d]. *)
Definition in_dir (d p : string) : bool := String.prefix (d +:+ "/") p.

(** [under d p]: [p] is [d] itself or lies below it. *)
Definition under (d p : string) : bool := String.eqb d p || in_dir d p.

Definition children (d : string) (fs : gmap string node) : gmap string node :=
  filter (λ kv, in_dir d kv.1 = true) fs.

Definition has_children (d : string) (fs : gmap string node) : bool :=
  bool_decide (children d fs ≠ ∅).

Definition ENOENT : error := "no such file or directory".

Definition ENOTEMPTY : error := "directory not empty".

Definition ErrClosed : error := "file already closed".

(** [os.Remove]: removes a file or an empty directory. *)
Definition fs_Remove (p : string) (fs : gmap string node)
  : option error * gmap string node :=
  match fs !! p with
  | None => (Some ENOENT, fs)
  | Some File => (None, delete p fs)
  | Some Dir =>
      if has_children p fs then (Some ENOTEMPTY, fs) else (None, delete p fs)
  end.

(** [os.RemoveAll]: removes the path and everything below it; an absent
    path is not an error. *)
Definition fs_RemoveAll (p : string) (fs : gmap string node)
  : gmap string node :=
  filter (λ kv, under p kv.1 = false) fs.

(** [os.Rename] of a regular file. [ok] tells whether the destination can be
    written; the call fails as well when the source is not there. *)
Definition fs_Rename (ok : bool) (src dst : string) (fs : gmap string node)
  : option error * gmap string node :=
  match fs !! src with
  | Some File =>
      if ok then (None, <[dst := File]> (delete src fs))
      else (Some ("rename " +:+ src +:+ " " +:+ dst +:+ ": permission denied"), fs)
  | _ => (Some ("rename " +:+ src +:+ " " +:+ dst +:+ ": " +:+ ENOENT), fs)
  end.

(** ** The configuration object and the backends *)

(** The fields of [vcfg.VCFG] that this file reads or writes. *)
Record NetworkInterface := mkNetworkInterface {
  IP : string;
  Gateway : string;
  Mask : string;
  MTU : nat
}.

Record VMSettings := mkVMSettings { Kernel : string }.

Record VCFG := mkVCFG {
  Networks : list NetworkInterface;
  VM : VMSettings
}.

Inductive Backend := VMware | Firecracker | HyperV | VirtualBox | QEMU.

#[global] Instance Backend_eq_dec : EqDecision Backend.
Proof. solve_decision. Defined.

(** The backend configuration handed to [virt.Initialize]; a value [c]
    stands for the bytes [c.Marshal()]. *)
Inductive BackendConfig :=
| VMwareConfig (Headless : bool) (NetworkType : string)
| FirecrackerConfig
| HyperVConfig (Headless : bool) (SwitchName : string)
| VirtualBoxConfig (Headless : bool) (NetworkType : string)
| QEMUConfig (Headless : bool).

(** Modelled from the spec: [iputil.BridgeIP] is declared outside this file;
    the comment in [runFirecracker] gives its value, the fixed bridge
    address. *)
Definition BridgeIP : string := "10.26.10.1".

(** ** The address queue ([goque.Queue]) *)

Record Queue := mkQueue {
  items : list string;
  isOpen : bool
}.

Definition ErrDBClosed : error := "goque: Database is closed".

Definition ErrEmpty : error := "goque: Stack or queue is empty".

(** ** Trace of calls *)

Inductive Event :=
| EvFetchBridgeDevice
| EvSetupBridge (ip : string)
| EvMkdirAll (p : string)
| EvCreate (p : string)
| EvWithDefaults
| EvNewIPStack
| EvDequeue
| EvIPSClose
| EvCreateBuilder
| EvBuilderClose
| EvNegotiateSize
| EvBuild (f : string)
| EvAssignKernel (k : string)
| EvFileClose (f : string)
| EvReaderClose
| EvAlloc (b : Backend)
| EvInitialize (c : BackendConfig)
| EvRun (b : Backend) (disk : string) (cfg : VCFG) (name : string)
| EvRename (src dst : string)
| EvRemove (p : string)
| EvRemoveAll (p : string)
| EvLog (msg : string).

(** ** The environment: what the host and the external collaborators answer *)

Record Env := mkEnv {
  GOOS : string;
  TempDir : string;
  Hex5 : string;                 (* randstr.Hex(5) *)
  TempSuffix : string;           (* the random suffix ioutil.TempFile picks *)
  VirtualizerID : Backend → string;
  IsAvailable : Backend → bool;
  flagGUI : bool;
  FetchBridgeDevice_err : option error;
  SetupBridge_err : option error;
  MkdirAll_err : option error;
  Create_err : option error;     (* os.Create and ioutil.TempFile *)
  Rename_ok : bool;              (* the destination of os.Rename is writable *)
  FileClose_err : option error;  (* what the first f.Close() returns *)
  WithDefaults : VCFG → VCFG * option error;
  NewIPStack : error + list string;
  NewIPStack_fs : gmap string node → gmap string node;
                   (* what opening the on-disk queue does to the file system *)
  CreateBuilder_err : option error;
  NegotiateSize_err : option error;
  Build_err : option error;      (* vdisk.Build, Format.Build *)
  KernelUsed : string;
  ReaderClose_err : option error;
  Initialize_err : option error;
  run_err : option error;
  run_fs : string → gmap string node → gmap string node
                   (* what running the disk at a path does to the file system *)
}.

(** ** The world *)

Record World := mkWorld {
  w_fs : gmap string node;
  w_open : gset string;          (* names of the open *os.File handles *)
  w_ips : option Queue;          (* the package-level variable ips *)
  w_cfg : VCFG;                  (* the object behind the cfg pointer *)
  w_trace : list Event
}.

Definition set_fs (fs : gmap string node) (w : World) : World :=
  match w with mkWorld _ o q c t => mkWorld fs o q c t end.

Definition set_open (o : gset string) (w : World) : World :=
  match w with mkWorld fs _ q c t => mkWorld fs o q c t end.

Definition set_ips (q : option Queue) (w : World) : World :=
  match w with mkWorld fs o _ c t => mkWorld fs o q c t end.

Definition set_cfg (c : VCFG) (w : World) : World :=
  match w with mkWorld fs o q _ t => mkWorld fs o q c t end.

Definition log (ev : Event) (w : World) : World :=
  match w with mkWorld fs o q c t => mkWorld fs o q c (t ++ [ev]) end.

(** A call: a Go function that has returned, with its result and the world
    it leaves. *)
Definition Call (A : Type) : Type := World → result A * World.

(** ** Function bodies, with Go's [defer] *)

(** A body runs in a world with the stack of calls deferred so far in the
    enclosing function (latest first). An [Err] is a [return err]: the
    statements after it are skipped. *)
Definition Go (A : Type) : Type :=
  World → list (World → World) → result A * World * list (World → World).

Definition ret {A} (a : A) : Go A := λ w ds, (Ok a, w, ds).

Definition return_err {A} (e : error) : Go A := λ w ds, (Err e, w, ds).

Definition bind {A B} (m : Go A) (k : A → Go B) : Go B :=
  λ w ds,
    match m w ds with
    | (Ok a, w', ds') => k a w' ds'
    | (Err e, w', ds') => (Err e, w', ds')
    end.

Declare Scope go_scope.

Delimit Scope go_scope with go.

Notation "x <- m ;; k" := (bind m (λ x, k))
  (at level 100, m at next level, right associativity) : go_scope.

Notation "m ;; k" := (bind m (λ _, k))
  (at level 100, right associativity) : go_scope.

Open Scope go_scope.

(** [err = g(...); if err != nil { return err }] *)
Definition call {A} (c : Call A) : Go A :=
  λ w ds, let '(r, w') := c w in (r, w', ds).

(** [err = g(...)] with the error kept as a value. *)
Definition attempt {A} (c : Call A) : Go (result A) :=
  λ w ds, let '(r, w') := c w in (Ok r, w', ds).

(** A call statement whose results are dropped. *)
Definition ignore {A} (c : Call A) : Go unit :=
  λ w ds, let '(_, w') := c w in (Ok tt, w', ds).

(** [defer g(...)]: the results of a deferred call are dropped. *)
Definition defer {A} (c : Call A) : Go unit :=
  λ w ds, (Ok tt, w, (λ w0, (c w0).2) :: ds).

Definition gets {A} (f : World → A) : Go A := λ w ds, (Ok (f w), w, ds).

Definition when (b : bool) (m : Go unit) : Go unit := if b then m else ret tt.

Definition run_deferred (ds : list (World → World)) (w : World) : World :=
  fold_left (λ w0 d, d w0) ds w.

(** A function: its body runs with an empty defer stack, and the deferred
    calls run, latest first, when it returns. None of the functions of this
    file has named results, so a deferred call cannot change what is
    returned. *)
Definition func {A} (body : Go A) : Call A :=
  λ w, let '(r, w', ds) := body w [] in (r, run_deferred ds w').

(** [for i := range xs] over a slice of length [n]. *)
Fixpoint for_range_from (i n : nat) (body : nat → Go unit) : Go unit :=
  match n with
  | O => ret tt
  | S n' => body i ;; for_range_from (S i) n' body
  end.

Definition for_range (n : nat) (body : nat → Go unit) : Go unit :=
  for_range_from 0 n body.

(** ** Operating system calls *)

Definition os_MkdirAll (env : Env) (p : string) : Call unit :=
  λ w,
    let w := log (EvMkdirAll p) w in
    match MkdirAll_err env with
    | Some e => (Err e, w)
    | None => (Ok tt, set_fs (<[p := Dir]> (w_fs w)) w)
    end.

(** [os.Create]; the returned handle is identified by the file's name. *)
Definition os_Create (env : Env) (p : string) : Call string :=
  λ w,
    let w := log (EvCreate p) w in
    match Create_err env with
    | Some e => (Err e, w)
    | None =>
        (Ok p, set_open ({[p]} ∪ w_open w) (set_fs (<[p := File]> (w_fs w)) w))
    end.

(** [ioutil.TempFile]: a fresh file in [dir] whose name starts with
    [pattern]. *)
Definition ioutil_TempFile (env : Env) (dir pattern : string) : Call string :=
  os_Create env (Join dir (pattern +:+ TempSuffix env)).

(** [f.Close()]: releases the descriptor; on a handle that is already
    closed it returns an error and releases nothing. *)
Definition File_Close (env : Env) (f : string) : Call unit :=
  λ w,
    let w := log (EvFileClose f) w in
    if bool_decide (f ∈ w_open w)
    then (of_error (FileClose_err env), set_open (w_open w ∖ {[f]}) w)
    else (Err ErrClosed, w).

Definition os_Rename (env : Env) (src dst : string) : Call unit :=
  λ w,
    let w := log (EvRename src dst) w in
    let r := fs_Rename (Rename_ok env) src dst (w_fs w) in
    (of_error r.1, set_fs r.2 w).

Definition os_Remove (p : string) : Call unit :=
  λ w,
    let w := log (EvRemove p) w in
    let r := fs_Remove p (w_fs w) in
    (of_error r.1, set_fs r.2 w).

Definition os_RemoveAll (p : string) : Call unit :=
  λ w,
    let w := log (EvRemoveAll p) w in
    (Ok tt, set_fs (fs_RemoveAll p (w_fs w)) w).

Definition log_msg (msg : string) : Call unit :=
  λ w, (Ok tt, log (EvLog msg) w).

(** ** External collaborators *)

Definition firecracker_FetchBridgeDevice (env : Env) : Call unit :=
  λ w, (of_error (FetchBridgeDevice_err env), log EvFetchBridgeDevice w).

Definition firecracker_SetupBridge (env : Env) (ip : string) : Call unit :=
  λ w, (of_error (SetupBridge_err env), log (EvSetupBridge ip) w).

(** [vcfg.WithDefaults(cfg, log)] rewrites the object behind [cfg]. *)
Definition vcfg_WithDefaults (env : Env) : Call unit :=
  λ w,
    let r := WithDefaults env (w_cfg w) in
    (of_error r.2, set_cfg r.1 (log EvWithDefaults w)).

(** [vdisk.Build(ctx, f, args)] *)
Definition vdisk_Build (env : Env) (f : string) : Call unit :=
  λ w, (of_error (Build_err env), log (EvBuild f) w).

Definition vdisk_CreateBuilder (env : Env) : Call unit :=
  λ w, (of_error (CreateBuilder_err env), log EvCreateBuilder w).

Definition vimgBuilder_Close : Call unit :=
  λ w, (Ok tt, log EvBuilderClose w).

Definition vdisk_NegotiateSize (env : Env) : Call unit :=
  λ w, (of_error (NegotiateSize_err env), log EvNegotiateSize w).

(** [args.Format.Build(ctx, log, w, vimgBuilder, cfg)] *)
Definition Format_Build (env : Env) (f : string) : Call unit :=
  λ w, (of_error (Build_err env), log (EvBuild f) w).

Definition pkgReader_Close (env : Env) : Call unit :=
  λ w, (of_error (ReaderClose_err env), log EvReaderClose w).

(** [alloc.Alloc()] *)
Definition Alloc (b : Backend) : Call Backend :=
  λ w, (Ok b, log (EvAlloc b) w).

(** [virt.Initialize(config.Marshal())] *)
Definition virt_Initialize (env : Env) (c : BackendConfig) : Call unit :=
  λ w, (of_error (Initialize_err env), log (EvInitialize c) w).

(** [run(virt, diskpath, cfg, name)]: starts the virtual machine. The
    virtualizer keeps its own files next to the disk; [run_fs diskpath] is
    what it has done to the file system by the time the call returns. *)
Definition run (env : Env) (virt : Backend) (diskpath name : string)
  : Call unit :=
  λ w,
    let w := log (EvRun virt diskpath (w_cfg w) name) w in
    (of_error (run_err env), set_fs (run_fs env diskpath (w_fs w)) w).

(** ** The address queue *)

(** [ips, err = iputil.NewIPStack()]: opens the queue, a database that is
    kept on disk and outlives the process; [NewIPStack_fs] is what opening
    it does to the file system (the first time, the directory of the
    database is created). [Dequeue] and [Close] rewrite files of that
    database; the file system of the model holds paths and their kinds, not
    contents. *)
Definition iputil_NewIPStack (env : Env) : Call unit :=
  λ w,
    let w := log EvNewIPStack w in
    match NewIPStack env with
    | inl e => (Err e, set_ips None w)
    | inr l =>
        (Ok tt,
         set_ips (Some (mkQueue l true))
           (set_fs (NewIPStack_fs env (w_fs w)) w))
    end.

(** [ips.Close()] *)
Definition ips_Close : Call unit :=
  λ w,
    let w := log EvIPSClose w in
    match w_ips w with
    | Some q => (Ok tt, set_ips (Some (mkQueue (items q) false)) w)
    | None => (Ok tt, w)
    end.

(** [ips.Dequeue()], with the item already turned into its string. *)
Definition ips_Dequeue : Call string :=
  λ w,
    let w := log EvDequeue w in
    match w_ips w with
    | None => (Err "invalid memory address or nil pointer dereference", w)
    | Some q =>
        if isOpen q then
          match items q with
          | [] => (Err ErrEmpty, w)
          | a :: rest => (Ok a, set_ips (Some (mkQueue rest true)) w)
          end
        else (Err ErrDBClosed, w)
    end.

(** [cfg.Networks[i].IP = ip; .Gateway = iputil.BridgeIP;
    .Mask = "255.255.255.0"] *)
Definition resolve (ip : string) (n : NetworkInterface) : NetworkInterface :=
  mkNetworkInterface ip BridgeIP "255.255.255.0" (MTU n).

Definition assign_network (i : nat) (ip : string) : Call unit :=
  λ w,
    let c := w_cfg w in
    (Ok tt, set_cfg (mkVCFG (alter (resolve ip) i (Networks c)) (VM c)) w).

(** [cfg.VM.Kernel = kernelVer] *)
Definition assign_kernel (k : string) : Call unit :=
  λ w,
    let c := w_cfg w in
    (Ok tt, set_cfg (mkVCFG (Networks c) (mkVMSettings k))
                    (log (EvAssignKernel k) w)).

(** ** The functions of virtualizers.go *)

(** [saveDisk] attempts to move the disk from [sourceDisk] to [destDisk]. *)
Definition saveDisk (env : Env) (sourceDisk destDisk : string) : Call unit :=
  func (
    r <- attempt (os_Rename env sourceDisk destDisk) ;;
    match r with
    | Err e =>
        call (log_msg ("Failed to Copy Disk to '" +:+ destDisk
                         +:+ "' error: " +:+ e)) ;;
        return_err e
    | Ok _ =>
        call (log_msg "Copied Disk") ;;
        ret tt
    end).

(** The body of the loop [for i := range cfg.Networks] of
    [buildFirecracker]. *)
Definition resolve_network (env : Env) (i : nat) : Go unit :=
  q <- gets w_ips ;;
  match q with
  | None =>
      call (iputil_NewIPStack env) ;;
      defer ips_Close
  | Some _ => ret tt
  end ;;
  ip <- call ips_Dequeue ;;
  call (assign_network i ip).

(** [buildFirecracker] builds the disk into the file [f] and returns the
    kernel version that was used. *)
Definition buildFirecracker (env : Env) (f : string) : Call string :=
  func (
    n <- gets (λ w, length (Networks (w_cfg w))) ;;
    for_range n (resolve_network env) ;;
    call (vdisk_CreateBuilder env) ;;
    defer vimgBuilder_Close ;;
    (* vimgBuilder.SetDefaultMTU(args.Format.DefaultMTU()) touches only the
       builder *)
    call (vdisk_NegotiateSize env) ;;
    call (Format_Build env f) ;;
    ret (KernelUsed env)).

(** The closure every orchestration defers once the disk file exists:
    [f.Close()], [saveDisk] when an output path was given,
    [os.Remove(f.Name())], [os.Remove(parent)]. *)
Definition cleanup (env : Env) (f parent diskOutput : string) : Call unit :=
  func (
    ignore (File_Close env f) ;;
    (if String.eqb diskOutput "" then ret tt
     else ignore (saveDisk env f diskOutput)) ;;
    ignore (os_Remove f) ;;
    ignore (os_Remove parent)).

(** The scratch directory of a backend: [VirtualizerID-hex] under the
    temporary directory. *)
Definition scratch (env : Env) (b : Backend) : string :=
  Join (TempDir env) (VirtualizerID env b +:+ "-" +:+ Hex5 env).

Definition runVMware (env : Env) (name diskOutput : string) : Call unit :=
  func (
    when (negb (IsAvailable env VMware))
      (return_err "vmware is not installed on your system") ;;
    let parent := scratch env VMware in
    call (os_MkdirAll env parent) ;;
    f <- call (os_Create env (Join parent "disk.vmdk")) ;;
    defer (cleanup env f parent diskOutput) ;;
    call (vdisk_Build env f) ;;
    call (File_Close env f) ;;
    call (pkgReader_Close env) ;;
    virt <- call (Alloc VMware) ;;
    let config := VMwareConfig (negb (flagGUI env)) "nat" in
    call (virt_Initialize env config) ;;
    call (vcfg_WithDefaults env) ;;
    call (run env virt f name)).

Definition runFirecracker (env : Env) (name diskOutput : string) : Call unit :=
  func (
    when (negb (String.eqb (GOOS env) "linux"))
      (return_err "firecracker is only available on linux") ;;
    when (negb (IsAvailable env Firecracker))
      (return_err "firecracker is not installed on your system") ;;
    r <- attempt (firecracker_FetchBridgeDevice env) ;;
    match r with
    | Err _ => call (firecracker_SetupBridge env BridgeIP)
    | Ok _ => ret tt
    end ;;
    let parent := scratch env Firecracker in
    defer (os_RemoveAll parent) ;;
    call (os_MkdirAll env parent) ;;
    f <- call (ioutil_TempFile env parent "vorteil.disk") ;;
    defer (cleanup env f parent diskOutput) ;;
    call (vcfg_WithDefaults env) ;;
    kernelVer <- call (buildFirecracker env f) ;;
    call (assign_kernel kernelVer) ;;
    call (File_Close env f) ;;
    call (pkgReader_Close env) ;;
    virt <- call (Alloc Firecracker) ;;
    when (flagGUI env)
      (call (log_msg "firecracker does not support displaying a gui")) ;;
    let config := FirecrackerConfig in
    call (virt_Initialize env config) ;;
    call (run env virt f name)).

Definition runHyperV (env : Env) (name diskOutput : string) : Call unit :=
  func (
    when (negb (String.eqb (GOOS env) "windows"))
      (return_err "hyper-v is only available on windows system") ;;
    when (negb (IsAvailable env HyperV))
      (return_err "hyper-v is not enabled on your system") ;;
    let parent := scratch env HyperV in
    call (os_MkdirAll env parent) ;;
    f <- call (os_Create env (Join parent "disk.vhd")) ;;
    defer (cleanup env f parent diskOutput) ;;
    call (vdisk_Build env f) ;;
    call (File_Close env f) ;;
    call (pkgReader_Close env) ;;
    virt <- call (Alloc HyperV) ;;
    let config := HyperVConfig (negb (flagGUI env)) "Default Switch" in
    call (virt_Initialize env config) ;;
    call (vcfg_WithDefaults env) ;;
    call (run env virt f name)).

Definition runVirtualBox (env : Env) (name diskOutput : string) : Call unit :=
  func (
    when (negb (IsAvailable env VirtualBox))
      (return_err "virtualbox not found installed on system") ;;
    let parent := scratch env VirtualBox in
    defer (os_RemoveAll parent) ;;
    call (os_MkdirAll env parent) ;;
    f <- call (ioutil_TempFile env parent "vorteil.disk") ;;
    defer (cleanup env f parent diskOutput) ;;
    call (vdisk_Build env f) ;;
    call (File_Close env f) ;;
    call (pkgReader_Close env) ;;
    virt <- call (Alloc VirtualBox) ;;
    let config := VirtualBoxConfig (negb (flagGUI env)) "nat" in
    call (virt_Initialize env config) ;;
    call (vcfg_WithDefaults env) ;;
    call (run env virt f name)).

Definition runQEMU (env : Env) (name diskOutput : string) : Call unit :=
  func (
    when (negb (IsAvailable env QEMU))
      (return_err "qemu not installed on system") ;;
    let parent := scratch env QEMU in
    defer (os_RemoveAll parent) ;;
    call (os_MkdirAll env parent) ;;
    f <- call (ioutil_TempFile env parent "vorteil.disk") ;;
    defer (cleanup env f parent diskOutput) ;;
    call (vdisk_Build env f) ;;
    call (File_Close env f) ;;
    call (pkgReader_Close env) ;;
    virt <- call (Alloc QEMU) ;;
    let config := QEMUConfig (negb (flagGUI env)) in
    call (virt_Initialize env config) ;;
    call (vcfg_WithDefaults env) ;;
    call (run env virt f name)).

(** The entry point of a backend. *)
Definition orchestrate (b : Backend) : Env → string → string → Call unit :=
  match b with
  | VMware => runVMware
  | Firecracker => runFirecracker
  | HyperV => runHyperV
  | VirtualBox => runVirtualBox
  | QEMU => runQEMU
  end.

(** The disk file of a backend, once it has been created. *)
Definition disk_file (env : Env) (b : Backend) : string :=
  match b with
  | VMware => Join (scratch env b) "disk.vmdk"
  | HyperV => Join (scratch env b) "disk.vhd"
  | _ => Join (scratch env b) ("vorteil.disk" +:+ TempSuffix env)
  end.

(** The configuration each orchestration hands to [virt.Initialize]. *)
Definition backend_config (env : Env) (b : Backend) : BackendConfig :=
  match b with
  | VMware => VMwareConfig (negb (flagGUI env)) "nat"
  | Firecracker => FirecrackerConfig
  | HyperV => HyperVConfig (negb (flagGUI env)) "Default Switch"
  | VirtualBox => VirtualBoxConfig (negb (flagGUI env)) "nat"
  | QEMU => QEMUConfig (negb (flagGUI env))
  end.

(** * The vocabulary of the properties *)

(** ** Reading the trace *)

(** The events a call has added to the trace. *)
Definition events (w w' : World) : list Event :=
  drop (length (w_trace w)) (w_trace w').

Fixpoint count (p : Event → bool) (t : list Event) : nat :=
  match t with
  | [] => 0
  | e :: t' => (if p e then 1 else 0) + count p t'
  end.

(** [in_order ps t]: the trace [t] has events satisfying the predicates of
    [ps] one after the other, in this order. *)
Fixpoint in_order (ps : list (Event → bool)) (t : list Event) : bool :=
  match ps, t with
  | [], _ => true
  | _ :: _, [] => false
  | p :: ps', e :: t' => if p e then in_order ps' t' else in_order ps t'
  end.

(** The events of [t] that satisfy [p], in their order. *)
Fixpoint keep (p : Event → bool) (t : list Event) : list Event :=
  match t with
  | [] => []
  | e :: t' => if p e then e :: keep p t' else keep p t'
  end.

Definition is_MkdirAll (e : Event) : bool :=
  match e with EvMkdirAll _ => true | _ => false end.

Definition is_Create (e : Event) : bool :=
  match e with EvCreate _ => true | _ => false end.

Definition is_Dequeue (e : Event) : bool :=
  match e with EvDequeue => true | _ => false end.

Definition is_NewIPStack (e : Event) : bool :=
  match e with EvNewIPStack => true | _ => false end.

Definition is_Build (e : Event) : bool :=
  match e with EvBuild _ => true | _ => false end.

Definition is_FileClose (e : Event) : bool :=
  match e with EvFileClose _ => true | _ => false end.

Definition is_ReaderClose (e : Event) : bool :=
  match e with EvReaderClose => true | _ => false end.

Definition is_Alloc (e : Event) : bool :=
  match e with EvAlloc _ => true | _ => false end.

Definition is_Initialize (e : Event) : bool :=
  match e with EvInitialize _ => true | _ => false end.

Definition is_Run (e : Event) : bool :=
  match e with EvRun _ _ _ _ => true | _ => false end.

(** The calls that make up the life of a virtual machine: the build of its
    disk, the close of the package reader, and the allocation, the
    initialization and the start of the virtualizer. *)
Definition lifecycle (e : Event) : bool :=
  is_Build e || is_ReaderClose e || is_Alloc e || is_Initialize e || is_Run e.

Definition is_Rename (src dst : string) (e : Event) : bool :=
  match e with
  | EvRename s d => String.eqb s src && String.eqb d dst
  | _ => false
  end.

Definition is_Remove (p : string) (e : Event) : bool :=
  match e with EvRemove q => String.eqb q p | _ => false end.

(** ** The deferred closure *)

(** What [saveDisk] writes to the log. *)
Definition saveDisk_log (destDisk : string) (e : option error) : string :=
  match e with
  | None => "Copied Disk"
  | Some m => "Failed to Copy Disk to '" +:+ destDisk +:+ "' error: " +:+ m
  end.

Definition cleanup_events (env : Env) (f parent diskOutput : string)
    (fs : gmap string node) : list Event :=
  EvFileClose f ::
  (if String.eqb diskOutput "" then []
   else [EvRename f diskOutput;
         EvLog (saveDisk_log diskOutput
                  (fs_Rename (Rename_ok env) f diskOutput fs).1)])
  ++ [EvRemove f; EvRemove parent].

Definition cleanup_fs (env : Env) (f parent diskOutput : string)
    (fs : gmap string node) : gmap string node :=
  let fs1 := if String.eqb diskOutput "" then fs
             else (fs_Rename (Rename_ok env) f diskOutput fs).2 in
  (fs_Remove parent (fs_Remove f fs1).2).2.

(** ** The loop of [buildFirecracker] *)

(** The interfaces after the addresses [ips] have been written, one after
    the other, into the slots from index [i] on. *)

Fixpoint resolve_from (i : nat) (ips : list string)
    (nets : list NetworkInterface) : list NetworkInterface :=
  match ips with
  | [] => nets
  | a :: ips' => resolve_from (S i) ips' (alter (resolve a) i nets)
  end.

(** The events [buildFirecracker] may add to the trace. *)
Definition build_event (e : Event) : bool :=
  match e with
  | EvNewIPStack | EvDequeue | EvIPSClose
  | EvCreateBuilder | EvBuilderClose | EvNegotiateSize | EvBuild _ => true
  | _ => false
  end.

(** The events of the address queue and of the deferred closes. *)
Definition housekeeping (e : Event) : bool :=
  match e with
  | EvNewIPStack | EvDequeue | EvIPSClose | EvBuilderClose => true
  | _ => false
  end.

(** [quiet w w']: from [w] to [w'] the file handles and the kernel field are
    untouched, only events of the queue and of the deferred closes were
    logged, and the file system is untouched unless the queue was opened. *)
Definition quiet (w w' : World) : Prop :=
  w_open w' = w_open w ∧ VM (w_cfg w') = VM (w_cfg w)
  ∧ ∃ t, w_trace w' = w_trace w ++ t ∧ forallb housekeeping t = true
         ∧ (count is_NewIPStack t = 0 → w_fs w' = w_fs w).

Definition quiet_deferred (ds : list (World → World)) : Prop :=
  Forall (λ d, ∀ w0, quiet w0 (d w0)) ds.

(** A predicate that no build event satisfies. *)
Definition not_build (p : Event → bool) : Prop :=
  ∀ e, build_event e = true → p e = false.

(** ** Availability and platform checks *)

Definition platform (b : Backend) : option string :=
  match b with
  | Firecracker => Some "linux"
  | HyperV => Some "windows"
  | _ => None
  end.

Definition supported (env : Env) (b : Backend) : bool :=
  match platform b with
  | Some os => String.eqb (GOOS env) os
  | None => true
  end.

(** The error an orchestration returns when its backend cannot be used. *)
Definition rejection (env : Env) (b : Backend) : error :=
  match b with
  | VMware => "vmware is not installed on your system"
  | Firecracker =>
      if supported env b then "firecracker is not installed on your system"
      else "firecracker is only available on linux"
  | HyperV =>
      if supported env b then "hyper-v is not enabled on your system"
      else "hyper-v is only available on windows system"
  | VirtualBox => "virtualbox not found installed on system"
  | QEMU => "qemu not installed on system"
  end.

(** ** Example hosts and worlds *)

(** A host on which every backend is installed and every collaborator
    succeeds, and the world of a fresh process. *)
Definition example_ids (b : Backend) : string :=
  match b with
  | VMware => "vmware"
  | Firecracker => "firecracker"
  | HyperV => "hyperv"
  | VirtualBox => "virtualbox"
  | QEMU => "qemu"
  end.

Definition env_ok : Env :=
  {| GOOS := "linux"; TempDir := "/tmp"; Hex5 := "a1b2c3d4e5";
     TempSuffix := "042"; VirtualizerID := example_ids;
     IsAvailable := λ _, true; flagGUI := false;
     FetchBridgeDevice_err := None; SetupBridge_err := None;
     MkdirAll_err := None; Create_err := None; Rename_ok := true;
     FileClose_err := None; WithDefaults := λ c, (c, None);
     NewIPStack := inr ["10.26.10.2"; "10.26.10.3"; "10.26.10.4"];
     NewIPStack_fs := λ fs, <["/var/lib/vorteil/ips" := Dir]> fs;
     CreateBuilder_err := None; NegotiateSize_err := None; Build_err := None;
     KernelUsed := "21.3.1"; ReaderClose_err := None; Initialize_err := None;
     run_err := None; run_fs := λ _ fs, fs |}.

Definition cfg_two_nics : VCFG :=
  {| Networks := [mkNetworkInterface "" "" "" 1500;
                  mkNetworkInterface "" "" "" 1500];
     VM := {| Kernel := "" |} |}.

Definition world0 : World :=
  {| w_fs := ∅; w_open := ∅; w_ips := None; w_cfg := cfg_two_nics;
     w_trace := [] |}.

Definition world_no_nics : World :=
  {| w_fs := ∅; w_open := ∅; w_ips := None;
     w_cfg := {| Networks := []; VM := {| Kernel := "" |} |};
     w_trace := [] |}.

Definition is_AssignKernel (k : string) (e : Event) : bool :=
  match e with EvAssignKernel k' => String.eqb k' k | _ => false end.

(** [run] was called with a configuration whose kernel field is [k]. *)
Definition is_Run_with_kernel (k : string) (e : Event) : bool :=
  match e with
  | EvRun _ _ c _ => String.eqb (Kernel (VM c)) k
  | _ => false
  end.

Definition with_Rename_ok (ok : bool) (env : Env) : Env :=
  {| GOOS := GOOS env; TempDir := TempDir env; Hex5 := Hex5 env;
     TempSuffix := TempSuffix env; VirtualizerID := VirtualizerID env;
     IsAvailable := IsAvailable env; flagGUI := flagGUI env;
     FetchBridgeDevice_err := FetchBridgeDevice_err env;
     SetupBridge_err := SetupBridge_err env;
     MkdirAll_err := MkdirAll_err env; Create_err := Create_err env;
     Rename_ok := ok;
     FileClose_err := FileClose_err env; WithDefaults := WithDefaults env;
     NewIPStack := NewIPStack env; NewIPStack_fs := NewIPStack_fs env;
     CreateBuilder_err := CreateBuilder_err env;
     NegotiateSize_err := NegotiateSize_err env; Build_err := Build_err env;
     KernelUsed := KernelUsed env; ReaderClose_err := ReaderClose_err env;
     Initialize_err := Initialize_err env;
     run_err := run_err env; run_fs := run_fs env |}.

(** ** The allocator seen by a build *)

(** The addresses the allocator can hand out to a build: the content of the
    queue when [ips] is set and open, what [iputil.NewIPStack] provides when
    [ips] is still nil. *)
Definition allocator (env : Env) (w : World) : option (list string) :=
  match w_ips w with
  | Some q => if isOpen q then Some (items q) else None
  | None =>
      match NewIPStack env with
      | inr l => Some l
      | inl _ => None
      end
  end.

(** Deferred calls that take nothing from the queue and leave the
    configuration alone. *)
Definition keeps_queue (ds : list (World → World)) : Prop :=
  ∀ w0, ∃ t',
    w_trace (run_deferred ds w0) = w_trace w0 ++ t'
    ∧ count is_Dequeue t' = 0
    ∧ items <$> w_ips (run_deferred ds w0) = items <$> w_ips w0
    ∧ w_cfg (run_deferred ds w0) = w_cfg w0.

Definition env_one_address : Env :=
  {| GOOS := "linux"; TempDir := "/tmp"; Hex5 := "a1b2c3d4e5";
     TempSuffix := "042"; VirtualizerID := example_ids;
     IsAvailable := λ _, true; flagGUI := false;
     FetchBridgeDevice_err := None; SetupBridge_err := None;
     MkdirAll_err := None; Create_err := None; Rename_ok := true;
     FileClose_err := None; WithDefaults := λ c, (c, None);
     NewIPStack := inr ["10.26.10.2"];
     NewIPStack_fs := λ fs, <["/var/lib/vorteil/ips" := Dir]> fs;
     CreateBuilder_err := None; NegotiateSize_err := None; Build_err := None;
     KernelUsed := "21.3.1"; ReaderClose_err := None; Initialize_err := None;
     run_err := None; run_fs := λ _ fs, fs |}.

Definition cfg_one_nic : VCFG :=
  {| Networks := [mkNetworkInterface "" "" "" 1500];
     VM := {| Kernel := "" |} |}.

Definition world_one_nic : World :=
  {| w_fs := ∅; w_open := ∅; w_ips := None; w_cfg := cfg_one_nic;
     w_trace := [] |}.

(** A host whose virtualizer keeps a lock directory next to the disk it
    runs, as VMware does with [disk.vmdk.lck]. *)
Definition env_lock : Env :=
  {| GOOS := "linux"; TempDir := "/tmp"; Hex5 := "a1b2c3d4e5";
     TempSuffix := "042"; VirtualizerID := example_ids;
     IsAvailable := λ _, true; flagGUI := false;
     FetchBridgeDevice_err := None; SetupBridge_err := None;
     MkdirAll_err := None; Create_err := None; Rename_ok := true;
     FileClose_err := None; WithDefaults := λ c, (c, None);
     NewIPStack := inr ["10.26.10.2"; "10.26.10.3"; "10.26.10.4"];
     NewIPStack_fs := λ fs, <["/var/lib/vorteil/ips" := Dir]> fs;
     CreateBuilder_err := None; NegotiateSize_err := None; Build_err := None;
     KernelUsed := "21.3.1"; ReaderClose_err := None; Initialize_err := None;
     run_err := None;
     run_fs := λ disk fs, <[disk +:+ ".lck" := Dir]> fs |}.

(** [settled x m]: a second [os.Remove] of [x] changes nothing, either
    because [x] is not there or because it is a directory with entries. *)
Definition settled (x : string) (m : gmap string node) : Prop :=
  m !! x = None ∨ (m !! x = Some Dir ∧ has_children x m = true).

(** ** The steps of a build *)

Definition is_IPSClose (e : Event) : bool :=
  match e with EvIPSClose => true | _ => false end.

Definition is_CreateBuilder (e : Event) : bool :=
  match e with EvCreateBuilder => true | _ => false end.

Definition is_BuilderClose (e : Event) : bool :=
  match e with EvBuilderClose => true | _ => false end.

Definition is_NegotiateSize (e : Event) : bool :=
  match e with EvNegotiateSize => true | _ => false end.

(** The error of the first step that fails, [None] when none does. *)
Fixpoint first_failure (es : list (option error)) : option error :=
  match es with
  | [] => None
  | Some e :: _ => Some e
  | None :: es' => first_failure es'
  end.

(** What [buildFirecracker] returns once its loop is through. *)
Definition build_result (env : Env) : result string :=
  match first_failure [CreateBuilder_err env; NegotiateSize_err env;
                       Build_err env] with
  | Some e => Err e
  | None => Ok (KernelUsed env)
  end.

(** The calls [buildFirecracker] makes once its loop is through, up to its
    [return]. *)
Definition build_steps (env : Env) (f : string) : list Event :=
  EvCreateBuilder ::
  match CreateBuilder_err env with
  | Some _ => []
  | None =>
      EvNegotiateSize ::
      match NegotiateSize_err env with
      | Some _ => []
      | None => [EvBuild f]
      end
  end.

(** The deferred [vimgBuilder.Close()], registered once the builder exists. *)
Definition builder_release (env : Env) : list Event :=
  match CreateBuilder_err env with
  | Some _ => []
  | None => [EvBuilderClose]
  end.

(** [buildFirecracker] creates the queue: [ips] is nil and a network is
    declared. *)
Definition creates_queue (w : World) : bool :=
  match w_ips w, Networks (w_cfg w) with
  | None, _ :: _ => true
  | _, _ => false
  end.

(** The results of a series of builds made one after the other in one
    process, each for a disk file and a configuration of its own. *)
Fixpoint build_series (env : Env) (reqs : list (string * VCFG)) (w : World)
  : list (result string) :=
  match reqs with
  | [] => []
  | (f, c) :: reqs' =>
      let rw := buildFirecracker env f (set_cfg c w) in
      rw.1 :: build_series env reqs' rw.2
  end.

(** ** The scratch directory and the relocation *)

(** [vacant d fs]: nothing exists at [d] or below it. *)
Definition vacant (d : string) (fs : gmap string node) : Prop :=
  ∀ p, under d p = true → fs !! p = None.

(** The disk reaches the output path: a path was given and the rename can
    be done. *)
Definition relocated (env : Env) (diskOutput : string) : bool :=
  negb (String.eqb diskOutput "") && Rename_ok env.

Definition is_RemoveAll (p : string) (e : Event) : bool :=
  match e with EvRemoveAll q => String.eqb q p | _ => false end.

(** ** Calls on the bridge and on the virtualizer *)

Definition is_FetchBridgeDevice (e : Event) : bool :=
  match e with EvFetchBridgeDevice => true | _ => false end.

Definition is_SetupBridge (e : Event) : bool :=
  match e with EvSetupBridge _ => true | _ => false end.

Definition is_SetupBridge_at (ip : string) (e : Event) : bool :=
  match e with EvSetupBridge i => String.eqb i ip | _ => false end.

Definition is_WithDefaults (e : Event) : bool :=
  match e with EvWithDefaults => true | _ => false end.

Definition is_Log (msg : string) (e : Event) : bool :=
  match e with EvLog m => String.eqb m msg | _ => false end.

(** The warning [runFirecracker] logs when a display was requested. *)
Definition GUI_warning : string :=
  "firecracker does not support displaying a gui".

(** [own_call env b name e]: when [e] is a call on a virtualizer, it is a
    call on the virtualizer of [b], with the configuration of [b], the disk
    file of [b] and the name [name]. *)
Definition own_call (env : Env) (b : Backend) (name : string) (e : Event)
  : Prop :=
  match e with
  | EvAlloc b' => b' = b
  | EvInitialize c => c = backend_config env b
  | EvRun b' d _ n => b' = b ∧ d = disk_file env b ∧ n = name
  | _ => True
  end.

(** The configuration a call of [run] was given. *)
Definition run_config (e : Event) : option VCFG :=
  match e with EvRun _ _ c _ => Some c | _ => None end.

(** ** Further example hosts *)

(** A host on which the address stack cannot be opened. *)
Definition env_no_stack : Env :=
  {| GOOS := "linux"; TempDir := "/tmp"; Hex5 := "a1b2c3d4e5";
     TempSuffix := "042"; VirtualizerID := example_ids;
     IsAvailable := λ _, true; flagGUI := false;
     FetchBridgeDevice_err := None; SetupBridge_err := None;
     MkdirAll_err := None; Create_err := None; Rename_ok := true;
     FileClose_err := None; WithDefaults := λ c, (c, None);
     NewIPStack := inl "resource temporarily unavailable";
     NewIPStack_fs := λ fs, <["/var/lib/vorteil/ips" := Dir]> fs;
     CreateBuilder_err := None; NegotiateSize_err := None; Build_err := None;
     KernelUsed := "21.3.1"; ReaderClose_err := None; Initialize_err := None;
     run_err := None; run_fs := λ _ fs, fs |}.

(** A host on which the disk file cannot be created. *)
Definition env_no_create : Env :=
  {| GOOS := "windows"; TempDir := "/tmp"; Hex5 := "a1b2c3d4e5";
     TempSuffix := "042"; VirtualizerID := example_ids;
     IsAvailable := λ _, true; flagGUI := false;
     FetchBridgeDevice_err := None; SetupBridge_err := None;
     MkdirAll_err := None; Create_err := Some "too many open files";
     Rename_ok := true;
     FileClose_err := None; WithDefaults := λ c, (c, None);
     NewIPStack := inr ["10.26.10.2"; "10.26.10.3"; "10.26.10.4"];
     NewIPStack_fs := λ fs, <["/var/lib/vorteil/ips" := Dir]> fs;
     CreateBuilder_err := None; NegotiateSize_err := None; Build_err := None;
     KernelUsed := "21.3.1"; ReaderClose_err := None; Initialize_err := None;
     run_err := None; run_fs := λ _ fs, fs |}.

(** A host without a bridge device, on which the bridge cannot be set up
    either. *)
Definition env_no_bridge : Env :=
  {| GOOS := "linux"; TempDir := "/tmp"; Hex5 := "a1b2c3d4e5";
     TempSuffix := "042"; VirtualizerID := example_ids;
     IsAvailable := λ _, true; flagGUI := true;
     FetchBridgeDevice_err := Some "Link not found";
     SetupBridge_err := Some "operation not permitted";
     MkdirAll_err := None; Create_err := None; Rename_ok := true;
     FileClose_err := None; WithDefaults := λ c, (c, None);
     NewIPStack := inr ["10.26.10.2"; "10.26.10.3"; "10.26.10.4"];
     NewIPStack_fs := λ fs, <["/var/lib/vorteil/ips" := Dir]> fs;
     CreateBuilder_err := None; NegotiateSize_err := None; Build_err := None;
     KernelUsed := "21.3.1"; ReaderClose_err := None; Initialize_err := None;
     run_err := None; run_fs := λ _ fs, fs |}.

(** A host on which the defaults of the configuration cannot be applied. *)
Definition env_bad_defaults : Env :=
  {| GOOS := "linux"; TempDir := "/tmp"; Hex5 := "a1b2c3d4e5";
     TempSuffix := "042"; VirtualizerID := example_ids;
     IsAvailable := λ _, true; flagGUI := false;
     FetchBridgeDevice_err := None; SetupBridge_err := None;
     MkdirAll_err := None; Create_err := None; Rename_ok := true;
     FileClose_err := None;
     WithDefaults := λ c, (c, Some "vcfg: invalid configuration");
     NewIPStack := inr ["10.26.10.2"; "10.26.10.3"; "10.26.10.4"];
     NewIPStack_fs := λ fs, <["/var/lib/vorteil/ips" := Dir]> fs;
     CreateBuilder_err := None; NegotiateSize_err := None; Build_err := None;
     KernelUsed := "21.3.1"; ReaderClose_err := None; Initialize_err := None;
     run_err := None; run_fs := λ _ fs, fs |}.

(** A host like [env_ok] on which a display was requested. *)
Definition env_gui : Env :=
  {| GOOS := "linux"; TempDir := "/tmp"; Hex5 := "a1b2c3d4e5";
     TempSuffix := "042"; VirtualizerID := example_ids;
     IsAvailable := λ _, true; flagGUI := true;
     FetchBridgeDevice_err := None; SetupBridge_err := None;
     MkdirAll_err := None; Create_err := None; Rename_ok := true;
     FileClose_err := None; WithDefaults := λ c, (c, None);
     NewIPStack := inr ["10.26.10.2"; "10.26.10.3"; "10.26.10.4"];
     NewIPStack_fs := λ fs, <["/var/lib/vorteil/ips" := Dir]> fs;
     CreateBuilder_err := None; NegotiateSize_err := None; Build_err := None;
     KernelUsed := "21.3.1"; ReaderClose_err := None; Initialize_err := None;
     run_err := None; run_fs := λ _ fs, fs |}.

(** * Proofs *)

(** ** Paths *)

Lemma prefix_app (a b : string) : String.prefix a (a +:+ b) = true.
Proof.
  induction a as [|c a IH].
  - by destruct b.
  - change (String c a +:+ b) with (String c (a +:+ b)). simpl.
    destruct (Ascii.ascii_dec c c); [exact IH | congruence].
Qed.

Lemma in_dir_Join (d name : string) : in_dir d (Join d name) = true.
Proof.
  unfold in_dir, Join.
  replace (d +:+ "/" +:+ name) with ((d +:+ "/") +:+ name).
  - apply prefix_app.
  - induction d as [|c d IH]; [done |].
    change (String c ((d +:+ "/") +:+ name) = String c (d +:+ "/" +:+ name)).
    by f_equal.
Qed.

Lemma under_Join (d name : string) : under d (Join d name) = true.
Proof. unfold under. rewrite in_dir_Join. apply orb_true_r. Qed.

Lemma under_refl (d : string) : under d d = true.
Proof. unfold under. by rewrite String.eqb_refl. Qed.

Lemma fs_RemoveAll_gone (d p : string) (fs : gmap string node) :
  under d p = true → fs_RemoveAll d fs !! p = None.
Proof.
  intros H. unfold fs_RemoveAll.
  apply map_lookup_filter_None. right. intros x _. simpl. congruence.
Qed.

(** ** Traces *)

Lemma events_eq (w w' : World) (t : list Event) :
  w_trace w' = w_trace w ++ t → events w w' = t.
Proof. intros H. unfold events. rewrite H. apply drop_app_length. Qed.

Lemma events_refl (w : World) : events w w = [].
Proof. apply events_eq. by rewrite app_nil_r. Qed.

Lemma count_app (p : Event → bool) (t1 t2 : list Event) :
  count p (t1 ++ t2) = count p t1 + count p t2.
Proof. induction t1 as [|e t1 IH]; simpl; [done | rewrite IH; lia]. Qed.

(** ** The deferred closure, in closed form *)

Lemma saveDisk_spec (env : Env) (src dst : string) (w : World) :
  saveDisk env src dst w =
    (of_error (fs_Rename (Rename_ok env) src dst (w_fs w)).1,
     log (EvLog (saveDisk_log dst (fs_Rename (Rename_ok env) src dst (w_fs w)).1))
       (set_fs (fs_Rename (Rename_ok env) src dst (w_fs w)).2
          (log (EvRename src dst) w))).
Proof.
  destruct w as [fs o q c t].
  unfold saveDisk, func, bind, attempt, call, os_Rename, log_msg, return_err, ret.
  simpl. by destruct (fs_Rename (Rename_ok env) src dst fs).1.
Qed.

Ltac world_simpl := simpl; rewrite <- ?app_assoc; simpl.

Lemma cleanup_spec (env : Env) (f parent out : string) (w : World) :
  cleanup env f parent out w =
    (Ok tt,
     mkWorld (cleanup_fs env f parent out (w_fs w))
             (w_open w ∖ {[f]})
             (w_ips w) (w_cfg w)
             (w_trace w ++ cleanup_events env f parent out (w_fs w))).
Proof.
  destruct w as [fs o q c t].
  unfold cleanup, func, bind, ignore, ret, File_Close, os_Remove.
  unfold cleanup_events, cleanup_fs.
  destruct (String.eqb out ""); simpl;
    destruct (bool_decide (f ∈ o)) eqn:Hf; simpl;
    rewrite ?saveDisk_spec; world_simpl; try reflexivity.
  all: apply bool_decide_eq_false in Hf.
  all: rewrite (difference_disjoint_L o {[f]}); [done |].
  all: by apply disjoint_singleton_r.
Qed.

(** ** The loop of [buildFirecracker], in closed form *)

Lemma resolve_from_length i l nets : length (resolve_from i l nets) = length nets.
Proof.
  revert i nets. induction l as [|a l IH]; intros i nets; simpl; [done|].
  by rewrite IH, length_alter.
Qed.

Lemma resolve_from_lookup i l nets j :
  resolve_from i l nets !! j =
    match l !! (j - i) with
    | Some a => if decide (i ≤ j) then resolve a <$> nets !! j else nets !! j
    | None => nets !! j
    end.
Proof.
  revert i nets. induction l as [|a l IH]; intros i nets; simpl; [done|].
  rewrite IH.
  destruct (decide (i ≤ j)) as [Hij|Hij].
  - destruct (decide (i = j)) as [->|Hne].
    + replace (j - j) with 0 by lia. replace (j - S j) with 0 by lia. simpl.
      rewrite list_lookup_alter_eq.
      destruct (l !! 0); [|done].
      destruct (decide (S j ≤ j)); [lia | done].
    + replace (j - i) with (S (j - S i)) by lia. simpl.
      rewrite list_lookup_alter_ne by done.
      destruct (l !! (j - S i)); [|done].
      destruct (decide (S i ≤ j)); [done | lia].
  - rewrite list_lookup_alter_ne by lia.
    replace (j - S i) with 0 by lia. replace (j - i) with 0 by lia. simpl.
    destruct (l !! 0); [|done].
    destruct (decide (S i ≤ j)); [lia | done].
Qed.

Lemma resolve_from_zip l nets :
  resolve_from 0 l nets =
    zip_with resolve l (take (length l) nets) ++ drop (length l) nets.
Proof.
  apply list_eq. intros j. rewrite resolve_from_lookup.
  replace (j - 0) with j by lia.
  destruct (decide (0 ≤ j)); [|lia].
  destruct (l !! j) as [a|] eqn:Hl.
  - pose proof (lookup_lt_Some _ _ _ Hl) as Hlt.
    destruct (nets !! j) as [n|] eqn:Hn.
    + rewrite lookup_app_l.
      2:{ rewrite length_zip_with, length_take.
          pose proof (lookup_lt_Some _ _ _ Hn). lia. }
      rewrite lookup_zip_with, Hl. simpl.
      by rewrite lookup_take_lt, Hn by lia.
    + simpl. symmetry. apply lookup_ge_None.
      apply lookup_ge_None in Hn.
      rewrite length_app, length_zip_with, length_take, length_drop. lia.
  - apply lookup_ge_None in Hl.
    destruct (decide (j < length nets)) as [Hj|Hj].
    + rewrite lookup_app_r.
      2:{ rewrite length_zip_with, length_take. lia. }
      rewrite length_zip_with, length_take, lookup_drop.
      f_equal. lia.
    + rewrite (proj2 (lookup_ge_None nets j)) by lia.
      symmetry. apply lookup_ge_None.
      rewrite length_app, length_zip_with, length_take, length_drop. lia.
Qed.

Ltac loop_unfold :=
  unfold resolve_network, bind, gets, call, defer, ret, return_err,
    iputil_NewIPStack, ips_Dequeue, ips_Close, assign_network.

(** The loop on a queue that is open. *)
Lemma loop_open (env : Env) (n : nat) :
  ∀ (i : nat) (w : World) (ds : list (World → World)) (l : list string),
    w_ips w = Some (mkQueue l true) →
    for_range_from i n (resolve_network env) w ds =
      (if decide (n ≤ length l) then Ok tt else Err ErrEmpty,
       mkWorld (w_fs w) (w_open w)
         (Some (mkQueue (drop n l) true))
         (mkVCFG (resolve_from i (take n l) (Networks (w_cfg w)))
                 (VM (w_cfg w)))
         (w_trace w ++
            replicate (if decide (n ≤ length l) then n else S (length l))
                      EvDequeue),
       ds).
Proof.
  induction n as [|n IH]; intros i w ds l Hq.
  - destruct w as [fs o q [nets vm] t]. simpl in *. subst q.
    by rewrite app_nil_r, drop_0.
  - destruct w as [fs o q [nets vm] t]. simpl in Hq. subst q.
    simpl. unfold bind at 1. unfold resolve_network at 1. loop_unfold.
    destruct l as [|a l]; world_simpl.
    + done.
    + rewrite (IH (S i) _ ds l) by done. world_simpl.
      destruct (decide (n ≤ length l));
        [rewrite !decide_True by lia | rewrite !decide_False by lia]; done.
Qed.

(** ** What a build leaves untouched *)

Lemma keep_app (p : Event → bool) (t1 t2 : list Event) :
  keep p (t1 ++ t2) = keep p t1 ++ keep p t2.
Proof.
  induction t1 as [|e t1 IH]; simpl; [done |].
  destruct (p e); simpl; by rewrite IH.
Qed.

Lemma housekeeping_build (t : list Event) :
  forallb housekeeping t = true → forallb build_event t = true.
Proof.
  induction t as [|e t IH]; simpl; [done |].
  intros [He Ht]%andb_true_iff. rewrite IH by done. by destruct e.
Qed.

Lemma keep_housekeeping (p : Event → bool) (t : list Event) :
  (∀ e, housekeeping e = true → p e = false) →
  forallb housekeeping t = true → keep p t = [].
Proof.
  intros Hp. induction t as [|e t IH]; simpl; [done |].
  intros [He Ht]%andb_true_iff. rewrite (Hp e He). auto.
Qed.

Lemma quiet_refl w : quiet w w.
Proof. repeat split. exists []. by rewrite app_nil_r. Qed.

Lemma quiet_trans w1 w2 w3 : quiet w1 w2 → quiet w2 w3 → quiet w1 w3.
Proof.
  intros (? & ? & t1 & Ht1 & ? & Hf1) (? & ? & t2 & Ht2 & ? & Hf2).
  repeat split; try congruence.
  exists (t1 ++ t2). rewrite Ht2, Ht1, <- app_assoc. split; [done |].
  split.
  - rewrite forallb_app. by apply andb_true_iff.
  - rewrite count_app. intros Hc.
    rewrite Hf2, Hf1 by lia. done.
Qed.

Lemma ips_Close_quiet w0 : quiet w0 (ips_Close w0).2.
Proof.
  unfold ips_Close. destruct w0 as [fs o [q|] c t]; world_simpl;
    repeat split; by exists [EvIPSClose].
Qed.

Lemma resolve_network_quiet (env : Env) (i : nat) (w : World)
    (ds : list (World → World)) :
  ∃ r w' ds0,
    resolve_network env i w ds = (r, w', ds0 ++ ds)
    ∧ quiet w w' ∧ quiet_deferred ds0.
Proof.
  destruct w as [fs o q [nets vm] t].
  unfold resolve_network. loop_unfold.
  destruct q as [[l [|]]|]; world_simpl.
  - destruct l as [|a l]; simpl.
    + eexists (Err ErrEmpty), _, []. split; [reflexivity |].
      repeat split; try constructor. by exists [EvDequeue].
    + eexists (Ok tt), _, []. split; [reflexivity |].
      repeat split; try constructor. by exists [EvDequeue].
  - eexists (Err ErrDBClosed), _, []. split; [reflexivity |].
    repeat split; try constructor. by exists [EvDequeue].
  - destruct (NewIPStack env) as [e|l]; world_simpl.
    + eexists (Err e), _, []. split; [reflexivity |].
      repeat split; try constructor. by exists [EvNewIPStack].
    + destruct l as [|a l]; world_simpl.
      * eexists (Err ErrEmpty), _, [_]. split; [reflexivity |].
        repeat split; try (by exists [EvNewIPStack; EvDequeue]).
        constructor; [| constructor]. intros w0. apply ips_Close_quiet.
      * eexists (Ok tt), _, [_]. split; [reflexivity |].
        repeat split; try (by exists [EvNewIPStack; EvDequeue]).
        constructor; [| constructor]. intros w0. apply ips_Close_quiet.
Qed.

Lemma loop_quiet (env : Env) (n : nat) :
  ∀ (i : nat) (w : World) (ds : list (World → World)),
    ∃ r w' ds0,
      for_range_from i n (resolve_network env) w ds = (r, w', ds0 ++ ds)
      ∧ quiet w w' ∧ quiet_deferred ds0.
Proof.
  induction n as [|n IH]; intros i w ds.
  - exists (Ok tt), w, []. repeat split; try constructor; try apply quiet_refl.
  - simpl. unfold bind at 1.
    destruct (resolve_network_quiet env i w ds) as (r & w1 & ds1 & -> & Hq & Hd).
    destruct r as [[]|e].
    + destruct (IH (S i) w1 (ds1 ++ ds)) as (r & w2 & ds2 & -> & Hq2 & Hd2).
      exists r, w2, (ds2 ++ ds1). rewrite <- app_assoc. split; [done|].
      split; [by eapply quiet_trans|]. by apply Forall_app.
    + exists (Err e), w1, ds1. done.
Qed.

Lemma run_deferred_quiet (ds : list (World → World)) :
  quiet_deferred ds → ∀ w, quiet w (run_deferred ds w).
Proof.
  unfold run_deferred. induction 1 as [|d ds Hd _ IH]; intros w; simpl.
  - apply quiet_refl.
  - eapply quiet_trans; [apply Hd | apply IH].
Qed.

(** ** Order of events *)

Lemma in_order_tail (p : Event → bool) (ps : list (Event → bool)) (t : list Event) :
  in_order (p :: ps) t = true → in_order ps t = true.
Proof.
  revert p ps. induction t as [|e t IH]; intros p ps H; [by destruct ps|].
  simpl in H. destruct ps as [|q qs]; [done|]. simpl.
  destruct (p e), (q e); eauto.
Qed.

Lemma in_order_cons (ps : list (Event → bool)) (e : Event) (t : list Event) :
  in_order ps t = true → in_order ps (e :: t) = true.
Proof.
  destruct ps as [|p ps]; [done|]. simpl. intros H.
  destruct (p e); [by eapply in_order_tail | done].
Qed.

Lemma in_order_skip (ps : list (Event → bool)) (t1 t2 : list Event) :
  in_order ps t2 = true → in_order ps (t1 ++ t2) = true.
Proof.
  intros H. induction t1 as [|e t1 IH]; simpl; [done|].
  by apply in_order_cons.
Qed.

Lemma in_order_app (ps1 ps2 : list (Event → bool)) (t1 t2 : list Event) :
  in_order ps1 t1 = true → in_order ps2 t2 = true →
  in_order (ps1 ++ ps2) (t1 ++ t2) = true.
Proof.
  revert ps1. induction t1 as [|e t1 IH]; intros ps1 H1 H2.
  - destruct ps1; [done | by destruct ps2].
  - destruct ps1 as [|p ps1]; simpl in *.
    + apply in_order_cons. by apply in_order_skip.
    + destruct (p e); auto. apply (IH (p :: ps1)); done.
Qed.

Lemma count_build_events (p : Event → bool) (t : list Event) :
  not_build p → forallb build_event t = true → count p t = 0.
Proof.
  intros Hp. induction t as [|e t IH]; simpl; [done|].
  intros [He Ht]%andb_true_iff. rewrite (Hp e He). auto.
Qed.

Lemma in_order_build_events (p : Event → bool) (ps : list (Event → bool))
    (t rest : list Event) :
  not_build p → forallb build_event t = true →
  in_order (p :: ps) (t ++ rest) = in_order (p :: ps) rest.
Proof.
  intros Hp. induction t as [|e t IH]; [done|].
  intros [He Ht]%andb_true_iff. simpl ((_ :: _) ++ _).
  change (in_order (p :: ps) (e :: t ++ rest))
    with (if p e then in_order ps (t ++ rest) else in_order (p :: ps) (t ++ rest)).
  rewrite (Hp e He). auto.
Qed.

Arguments cleanup : simpl never.

Arguments saveDisk : simpl never.

Arguments run_deferred : simpl never.

Lemma vimgBuilder_Close_quiet w0 : quiet w0 (vimgBuilder_Close w0).2.
Proof. destruct w0. repeat split. by exists [EvBuilderClose]. Qed.

Lemma housekeeping_not_Build (e : Event) :
  housekeeping e = true → is_Build e = false.
Proof. by destruct e. Qed.

(** [buildFirecracker] as a whole. *)
Lemma buildFirecracker_spec (env : Env) (f : string) (w : World) :
  ∃ r w' t,
    buildFirecracker env f w = (r, w')
    ∧ (count is_NewIPStack t = 0 → w_fs w' = w_fs w)
    ∧ w_open w' = w_open w
    ∧ VM (w_cfg w') = VM (w_cfg w)
    ∧ w_trace w' = w_trace w ++ t
    ∧ forallb build_event t = true
    ∧ (is_ok r = true →
         r = Ok (KernelUsed env) ∧ in_order [is_Build] t = true
         ∧ keep is_Build t = [EvBuild f]).
Proof.
  unfold buildFirecracker, func, for_range.
  unfold bind at 1. unfold gets. unfold bind at 1.
  destruct (loop_quiet env (length (Networks (w_cfg w))) 0 w [])
    as (r & w1 & ds1 & -> & Hq & Hd).
  rewrite app_nil_r.
  destruct w1 as [fs1 o1 q1 c1 tr1].
  assert (Hfin : ∀ (r0 : result string) (t0 : list Event)
                   (ds : list (World → World)) (W : World),
    W = mkWorld fs1 o1 q1 c1 (tr1 ++ t0) →
    forallb build_event t0 = true → count is_NewIPStack t0 = 0 →
    quiet_deferred ds →
    (is_ok r0 = true →
       r0 = Ok (KernelUsed env) ∧ in_order [is_Build] t0 = true
       ∧ keep is_Build t0 = [EvBuild f]) →
    ∃ r' w' t,
      (r0, run_deferred ds W) = (r', w')
      ∧ (count is_NewIPStack t = 0 → w_fs w' = w_fs w)
      ∧ w_open w' = w_open w
      ∧ VM (w_cfg w') = VM (w_cfg w)
      ∧ w_trace w' = w_trace w ++ t
      ∧ forallb build_event t = true
      ∧ (is_ok r' = true →
           r' = Ok (KernelUsed env) ∧ in_order [is_Build] t = true
           ∧ keep is_Build t = [EvBuild f])).
  { intros r0 t0 ds W -> Ht0 Hc0 Hds Hr0.
    destruct Hq as (Hop & Hvm & t1 & Ht1 & Hb1 & Hf1).
    destruct (run_deferred_quiet ds Hds (mkWorld fs1 o1 q1 c1 (tr1 ++ t0)))
      as (Hop2 & Hvm2 & t2 & Ht2 & Hb2 & Hf2).
    simpl in *.
    eexists _, _, (t1 ++ t0 ++ t2). split; [reflexivity|].
    repeat split; try congruence.
    - rewrite !count_app. intros Hc. rewrite Hf2, Hf1 by lia. done.
    - by rewrite Ht2, Ht1, <- !app_assoc.
    - rewrite !forallb_app, Ht0, !housekeeping_build by done. done.
    - by apply Hr0.
    - apply in_order_skip. apply (in_order_app [is_Build] [] t0 t2); [|by destruct t2].
      by apply Hr0.
    - rewrite !keep_app.
      rewrite (keep_housekeeping is_Build t1), (keep_housekeeping is_Build t2)
        by auto using housekeeping_not_Build.
      rewrite app_nil_r. by apply Hr0. }
  assert (Hd' : quiet_deferred ((λ w0, (vimgBuilder_Close w0).2) :: ds1)).
  { constructor; [|done]. intros w0. apply vimgBuilder_Close_quiet. }
  destruct r as [[]|e].
  - unfold call, defer, ret, vdisk_CreateBuilder, vdisk_NegotiateSize, Format_Build.
    destruct (CreateBuilder_err env) as [e|]; world_simpl.
    { by apply (Hfin (Err e) [EvCreateBuilder]). }
    destruct (NegotiateSize_err env) as [e|]; world_simpl.
    { by apply (Hfin (Err e) [EvCreateBuilder; EvNegotiateSize]). }
    destruct (Build_err env) as [e|]; world_simpl.
    { by apply (Hfin (Err e) [EvCreateBuilder; EvNegotiateSize; EvBuild f]). }
    by apply (Hfin (Ok (KernelUsed env)) [EvCreateBuilder; EvNegotiateSize; EvBuild f]).
  - apply (Hfin (Err e) []); try done. by rewrite app_nil_r.
Qed.

(** ** Symbolic runs of the orchestrations *)

Ltac orch_unfold :=
  unfold orchestrate, runVMware, runFirecracker, runHyperV, runVirtualBox,
    runQEMU, func, bind, when, ret, return_err, call, attempt, defer, gets,
    ioutil_TempFile, os_MkdirAll, os_Create, File_Close, os_RemoveAll, log_msg,
    firecracker_FetchBridgeDevice, firecracker_SetupBridge, vcfg_WithDefaults,
    vdisk_Build, pkgReader_Close, Alloc, virt_Initialize, run, assign_kernel.

Lemma open_after_create (f : string) (o : gset string) :
  bool_decide (f ∈ {[f]} ∪ o) = true.
Proof. apply bool_decide_eq_true_2. set_solver. Qed.

(** One step of the symbolic run of an orchestration: settle the answer of
    the next collaborator. *)
Ltac orch_step env :=
  match goal with
  | |- context [String.eqb (GOOS env) ?s] =>
      destruct (String.eqb (GOOS env) s) eqn:?
  | |- context [IsAvailable env ?b] => destruct (IsAvailable env b) eqn:?
  | |- context [FetchBridgeDevice_err env] =>
      destruct (FetchBridgeDevice_err env) eqn:?
  | |- context [SetupBridge_err env] => destruct (SetupBridge_err env) eqn:?
  | |- context [MkdirAll_err env] => destruct (MkdirAll_err env) eqn:?
  | |- context [Create_err env] => destruct (Create_err env) eqn:?
  | |- context [(WithDefaults env ?c).2] =>
      destruct (WithDefaults env c).2 eqn:?
  | |- context [buildFirecracker env ?f ?W] =>
      let rb := fresh "rb" in
      let fsb := fresh "fsb" in
      let ob := fresh "ob" in
      let qb := fresh "qb" in
      let nb := fresh "nets" in
      let vmb := fresh "vmb" in
      let trb := fresh "trb" in
      let tb := fresh "tb" in
      let Hb := fresh "Hb" in
      let Hfs := fresh "Hfs" in
      let Hop := fresh "Hop" in
      let Hvm := fresh "Hvm" in
      let Htr := fresh "Htr" in
      let Hev := fresh "Hev" in
      let Hok := fresh "Hok" in
      destruct (buildFirecracker_spec env f W)
        as (rb & [fsb ob qb [nb vmb] trb] & tb & Hb & Hfs & Hop & Hvm & Htr & Hev & Hok);
      rewrite Hb; clear Hb;
      simpl in Hfs, Hop, Hvm, Htr; rewrite <- ?app_assoc in Htr; simpl in Htr;
      subst ob vmb trb;
      destruct rb;
      [destruct (Hok eq_refl) as ([= ->] & ? & ?) | ]; clear Hok
  | |- context [Build_err env] => destruct (Build_err env) eqn:?
  | |- context [bool_decide (?f ∈ {[?f]} ∪ ?o)] =>
      rewrite (open_after_create f o)
  | |- context [FileClose_err env] => destruct (FileClose_err env) eqn:?
  | |- context [ReaderClose_err env] => destruct (ReaderClose_err env) eqn:?
  | |- context [flagGUI env] => destruct (flagGUI env) eqn:?
  | |- context [Initialize_err env] => destruct (Initialize_err env) eqn:?
  | |- context [run_err env] => destruct (run_err env) eqn:?
  end.

Ltac orch_run env :=
  orch_unfold; repeat (simpl; orch_step env); simpl;
  unfold run_deferred; simpl; rewrite ?cleanup_spec; world_simpl.

Lemma not_build_ReaderClose : not_build is_ReaderClose.
Proof. by intros []. Qed.

Lemma not_build_Initialize : not_build is_Initialize.
Proof. by intros []. Qed.

Lemma not_build_Alloc : not_build is_Alloc.
Proof. by intros []. Qed.

Lemma not_build_Run : not_build is_Run.
Proof. by intros []. Qed.

Lemma not_build_FileClose : not_build is_FileClose.
Proof. by intros []. Qed.

Lemma not_build_Create : not_build is_Create.
Proof. by intros []. Qed.

Create HintDb trace discriminated.

#[export] Hint Resolve not_build_ReaderClose not_build_Initialize
  not_build_Alloc not_build_Run not_build_FileClose not_build_Create : trace.

(** The events of a finished symbolic run. *)
Ltac events_norm :=
  unfold events; simpl; rewrite ?drop_app_length, ?drop_all;
  unfold cleanup_events.

Ltac count_norm :=
  simpl; rewrite ?count_app; simpl;
  repeat match goal with
  | H : forallb build_event ?tb = true |- context [count ?p ?tb] =>
      rewrite (count_build_events p tb) by (auto with trace)
  end; simpl.

(** ** Fail fast *)

(** C2. When the availability probe of the backend answers false, or the
    backend is restricted to another operating system family (firecracker:
    linux, hyper-v: windows), the orchestration returns the descriptive
    error of the backend and leaves the world exactly as it was: no scratch
    directory, no file handle, no address taken from the queue, no call
    logged at all. *)
Theorem unavailable_backend_fails_fast (b : Backend) (env : Env)
    (name out : string) (w : World) :
  supported env b && IsAvailable env b = false →
  orchestrate b env name out w = (Err (rejection env b), w).
Proof.
  intros H. unfold rejection, supported in *.
  destruct b; simpl in H |- *;
    unfold runVMware, runFirecracker, runHyperV, runVirtualBox, runQEMU,
      func, bind, when.
  all: try (rewrite H; reflexivity).
  - destruct (String.eqb (GOOS env) "linux"); simpl in *;
      [rewrite H|]; reflexivity.
  - destruct (String.eqb (GOOS env) "windows"); simpl in *;
      [rewrite H|]; reflexivity.
Qed.

Lemma unavailable_backend_fails_fast_witness :
  supported env_ok HyperV && IsAvailable env_ok HyperV = false
  ∧ orchestrate HyperV env_ok "vm" "" world0
    = (Err "hyper-v is only available on windows system", world0).
Proof.
  split; [reflexivity |].
  apply (unavailable_backend_fails_fast HyperV env_ok "vm" "" world0).
  reflexivity.
Defined.

(** ** Order of the calls *)

Lemma keep_lifecycle_build (t : list Event) :
  forallb build_event t = true → keep lifecycle t = keep is_Build t.
Proof.
  induction t as [|e t IH]; simpl; [done |].
  intros [He Ht]%andb_true_iff. rewrite IH by done. by destruct e.
Qed.

(** The lifecycle calls of a finished symbolic run. *)
Ltac keep_norm :=
  simpl; rewrite ?keep_app;
  repeat match goal with
  | H : forallb build_event ?tb = true, H2 : keep is_Build ?tb = _
    |- context [keep lifecycle ?tb] =>
      rewrite (keep_lifecycle_build tb H), H2
  end; simpl.

(** C7. In every successful orchestration the calls that make up the life
    of the virtual machine are exactly these, in this order and once each:
    the build of the disk, the close of the package reader, the allocation
    of the virtualizer, [Initialize] with the configuration of the backend,
    and [run] on the disk that was built. So the reader is closed after the
    one build and before the virtualizer is allocated and initialized, and
    the virtualizer is initialized once, before it is started. When the
    reader's close fails, the call returns that error and the virtualizer
    is never allocated, initialized or started: the build and the close are
    the only such calls. *)
Theorem reader_closed_then_initialized_once (b : Backend) (env : Env)
    (name out : string) (w w' : World) (r : result unit) :
  orchestrate b env name out w = (r, w') →
  (r = Ok tt →
     count is_ReaderClose (events w w') = 1
     ∧ count is_Initialize (events w w') = 1
     ∧ in_order [is_Build; is_ReaderClose; is_Alloc; is_Initialize; is_Run]
         (events w w') = true
     ∧ ∃ cfg,
         keep lifecycle (events w w')
         = [EvBuild (disk_file env b); EvReaderClose; EvAlloc b;
            EvInitialize (backend_config env b);
            EvRun b (disk_file env b) cfg name])
  ∧ (∀ e, ReaderClose_err env = Some e →
       count is_Alloc (events w w') = 0
       ∧ count is_Initialize (events w w') = 0
       ∧ count is_Run (events w w') = 0
       ∧ (count is_ReaderClose (events w w') = 1 →
            r = Err e
            ∧ keep lifecycle (events w w')
              = [EvBuild (disk_file env b); EvReaderClose])).
Proof.
  destruct w as [fs o q c t]. unfold backend_config. destruct b.
  all: orch_run env.
  all: intros [= <- <-]; events_norm.
  all: split; [intros [=] | intros ? [=]].
  all: destruct (String.eqb out ""); count_norm.
  all: repeat split; try done; try congruence.
  all: try (apply (in_order_app [is_Build]); [assumption | reflexivity]).
  all: try (eexists; keep_norm; reflexivity).
  all: try intros _.
  all: keep_norm; reflexivity.
Qed.

Lemma reader_closed_then_initialized_once_witness :
  let w' := (orchestrate Firecracker env_ok "vm" "" world0).2 in
  orchestrate Firecracker env_ok "vm" "" world0 = (Ok tt, w')
  ∧ count is_ReaderClose (events world0 w') = 1
  ∧ count is_Initialize (events world0 w') = 1.
Proof.
  intros w'. split; [vm_compute; reflexivity |].
  destruct (reader_closed_then_initialized_once Firecracker env_ok "vm" ""
              world0 w' (Ok tt)) as [H _]; [vm_compute; reflexivity |].
  destruct (H eq_refl) as (H1 & H2 & _). by split.
Defined.

(** ** The qemu scenario *)

(** C8. When qemu is available and the collaborators before the start
    succeed, [runQEMU] returns what [run] returns, and the calls it makes
    are, in this order: the scratch directory and the disk file are
    created, the disk is built into the file, the file and the package
    reader are closed, the virtualizer is allocated, [Initialize] receives
    the configuration with [Headless = !flagGUI] (so [true] when no display
    was requested), the defaults are applied and [run] is called with the
    path of the disk file. No other initialize or start follows, and the
    address queue is untouched, whatever the number of declared networks. *)
Theorem qemu_scenario (env : Env) (name out : string) (w : World) :
  IsAvailable env QEMU = true →
  MkdirAll_err env = None → Create_err env = None → Build_err env = None →
  FileClose_err env = None → ReaderClose_err env = None →
  Initialize_err env = None → (WithDefaults env (w_cfg w)).2 = None →
  ∃ w' rest,
    runQEMU env name out w = (of_error (run_err env), w')
    ∧ events w w' =
        [EvMkdirAll (scratch env QEMU);
         EvCreate (disk_file env QEMU);
         EvBuild (disk_file env QEMU);
         EvFileClose (disk_file env QEMU);
         EvReaderClose;
         EvAlloc QEMU;
         EvInitialize (QEMUConfig (negb (flagGUI env)));
         EvWithDefaults;
         EvRun QEMU (disk_file env QEMU) (WithDefaults env (w_cfg w)).1 name]
        ++ rest
    ∧ count is_Initialize rest = 0 ∧ count is_Run rest = 0
    ∧ w_ips w' = w_ips w.
Proof.
  destruct w as [fs o q c t]. intros.
  orch_run env. all: simpl in *; try congruence.
  all: eexists _, _; (split; [reflexivity |]); events_norm.
  all: (split; [reflexivity |]).
  all: destruct (String.eqb out ""); done.
Qed.

Lemma qemu_scenario_witness :
  ∃ w' rest,
    runQEMU env_ok "vm" "" world_no_nics = (Ok tt, w')
    ∧ events world_no_nics w' =
        [EvMkdirAll "/tmp/qemu-a1b2c3d4e5";
         EvCreate "/tmp/qemu-a1b2c3d4e5/vorteil.disk042";
         EvBuild "/tmp/qemu-a1b2c3d4e5/vorteil.disk042";
         EvFileClose "/tmp/qemu-a1b2c3d4e5/vorteil.disk042";
         EvReaderClose;
         EvAlloc QEMU;
         EvInitialize (QEMUConfig true);
         EvWithDefaults;
         EvRun QEMU "/tmp/qemu-a1b2c3d4e5/vorteil.disk042"
           {| Networks := []; VM := {| Kernel := "" |} |} "vm"]
        ++ rest.
Proof.
  destruct (qemu_scenario env_ok "vm" "" world_no_nics)
    as (w' & rest & H1 & H2 & _); try reflexivity.
  exists w', rest. split; [exact H1 | exact H2].
Defined.

Lemma not_build_AssignKernel k : not_build (is_AssignKernel k).
Proof. by intros []. Qed.

Lemma not_build_Run_with_kernel k : not_build (is_Run_with_kernel k).
Proof. by intros []. Qed.

Lemma not_build_Rename s d : not_build (is_Rename s d).
Proof. by intros []. Qed.

Lemma not_build_Remove p : not_build (is_Remove p).
Proof. by intros []. Qed.

#[export] Hint Resolve not_build_AssignKernel not_build_Run_with_kernel
  not_build_Rename not_build_Remove : trace.

(** ** The kernel version of a firecracker build *)

(** C4. In every successful firecracker orchestration the kernel version
    that [buildFirecracker] returns, [KernelUsed] of the image builder, is
    assigned to [cfg.VM.Kernel] after the build and before [Initialize]; the
    one call of [run] receives a configuration whose kernel field is that
    version, and the configuration still holds it when the call returns. *)
Theorem firecracker_kernel_threaded (env : Env) (name out : string)
    (w w' : World) :
  runFirecracker env name out w = (Ok tt, w') →
  in_order [is_Build; is_AssignKernel (KernelUsed env); is_Initialize;
            is_Run_with_kernel (KernelUsed env)] (events w w') = true
  ∧ count is_Initialize (events w w') = 1
  ∧ count is_Run (events w w') = 1
  ∧ count (is_Run_with_kernel (KernelUsed env)) (events w w') = 1
  ∧ Kernel (VM (w_cfg w')) = KernelUsed env.
Proof.
  destruct w as [fs o q c t].
  orch_run env.
  all: intros [= <-]; events_norm.
  all: destruct (String.eqb out ""); count_norm.
  all: rewrite ?String.eqb_refl; simpl.
  all: repeat split; try done.
  all: apply (in_order_app [is_Build]); [assumption |].
  all: simpl; rewrite ?String.eqb_refl; reflexivity.
Qed.

Lemma firecracker_kernel_threaded_witness :
  let w' := (runFirecracker env_ok "vm" "" world0).2 in
  runFirecracker env_ok "vm" "" world0 = (Ok tt, w')
  ∧ count (is_Run_with_kernel "21.3.1") (events world0 w') = 1
  ∧ Kernel (VM (w_cfg w')) = "21.3.1".
Proof.
  intros w'.
  assert (H : runFirecracker env_ok "vm" "" world0 = (Ok tt, w'))
    by (vm_compute; reflexivity).
  split; [exact H |].
  destruct (firecracker_kernel_threaded env_ok "vm" "" world0 w' H)
    as (_ & _ & _ & H1 & H2).
  by split.
Defined.

(** What an orchestration returns does not depend on whether the
    destination of the relocation can be written. *)
Lemma result_ignores_relocation (b : Backend) (env : Env) (ok : bool)
    (name out : string) (w : World) :
  (orchestrate b (with_Rename_ok ok env) name out w).1
  = (orchestrate b env name out w).1.
Proof.
  destruct w as [fs o q c t]. destruct b.
  all: orch_unfold.
  all: change (buildFirecracker (with_Rename_ok ok env))
         with (buildFirecracker env).
  all: unfold scratch, with_Rename_ok.
  all: repeat (simpl; orch_step env); reflexivity.
Qed.

(** ** Relocation of the disk *)

(** C5. With a non-empty output path, whenever the disk file was created
    (hence also whenever the build succeeded), whatever happens afterwards:
    [os.Rename] of the disk file to the output path is attempted exactly
    once, inside the deferred closure (after a close of the file, before
    the two removals, and with no build or start after it); and the
    orchestration returns the same result whether or not the destination
    can be written. *)
Theorem relocation_attempted_in_finalization (b : Backend) (env : Env)
    (name out : string) (w w' : World) (r : result unit) :
  out ≠ "" →
  orchestrate b env name out w = (r, w') →
  Create_err env = None →
  count is_Create (events w w') = 1 →
  count (is_Rename (disk_file env b) out) (events w w') = 1
  ∧ in_order [is_Create; is_FileClose; is_Rename (disk_file env b) out;
              is_Remove (disk_file env b); is_Remove (scratch env b)]
      (events w w') = true
  ∧ in_order [is_Rename (disk_file env b) out; is_Build] (events w w') = false
  ∧ in_order [is_Rename (disk_file env b) out; is_Run] (events w w') = false
  ∧ ∀ ok, (orchestrate b (with_Rename_ok ok env) name out w).1 = r.
Proof.
  intros Hout Hrun Hc Hn.
  assert (Hres : ∀ ok, (orchestrate b (with_Rename_ok ok env) name out w).1 = r).
  { intros ok. by rewrite result_ignores_relocation, Hrun. }
  cut (count (is_Rename (disk_file env b) out) (events w w') = 1
       ∧ in_order [is_Create; is_FileClose; is_Rename (disk_file env b) out;
                   is_Remove (disk_file env b); is_Remove (scratch env b)]
           (events w w') = true
       ∧ in_order [is_Rename (disk_file env b) out; is_Build] (events w w') = false
       ∧ in_order [is_Rename (disk_file env b) out; is_Run] (events w w') = false).
  { intros (? & ? & ? & ?). done. }
  clear Hres. revert Hrun Hc Hn.
  destruct w as [fs o q c t]. destruct b.
  all: orch_run env.
  all: intros [= <- <-] Hc; try discriminate Hc.
  all: events_norm.
  all: destruct (String.eqb out "") eqn:Eout;
         [apply String.eqb_eq in Eout; congruence |].
  all: count_norm; rewrite ?String.eqb_refl; simpl.
  all: intros Hn; try discriminate Hn.
  all: repeat split; try done.
  all: rewrite in_order_build_events by auto with trace.
  all: simpl; rewrite ?String.eqb_refl; reflexivity.
Qed.

Lemma relocation_attempted_in_finalization_witness :
  let w' := (orchestrate VMware env_ok "vm" "/srv/disk.vmdk" world0).2 in
  count (is_Rename "/tmp/vmware-a1b2c3d4e5/disk.vmdk" "/srv/disk.vmdk")
    (events world0 w') = 1.
Proof.
  intros w'.
  apply (relocation_attempted_in_finalization VMware env_ok "vm"
           "/srv/disk.vmdk" world0 w' (Ok tt)).
  - discriminate.
  - vm_compute; reflexivity.
  - reflexivity.
  - vm_compute; reflexivity.
Defined.

(** The loop when [ips] is nil and the queue can be created. *)
Lemma loop_lazy (env : Env) (n i : nat) (w : World)
    (ds : list (World → World)) (l : list string) :
  w_ips w = None → NewIPStack env = inr l →
  for_range_from i (S n) (resolve_network env) w ds =
    (if decide (S n ≤ length l) then Ok tt else Err ErrEmpty,
     mkWorld (NewIPStack_fs env (w_fs w)) (w_open w)
       (Some (mkQueue (drop (S n) l) true))
       (mkVCFG (resolve_from i (take (S n) l) (Networks (w_cfg w)))
               (VM (w_cfg w)))
       (w_trace w ++ EvNewIPStack ::
          replicate (if decide (S n ≤ length l) then S n else S (length l))
                    EvDequeue),
     (λ w0, (ips_Close w0).2) :: ds).
Proof.
  intros Hq Hl. destruct w as [fs o q [nets vm] t]. simpl in Hq. subst q.
  simpl. set (rest := for_range_from (S i) n (resolve_network env)).
  unfold bind at 1. unfold resolve_network at 1. loop_unfold.
  simpl. rewrite Hl. simpl.
  destruct l as [|a l]; world_simpl; [done |].
  subst rest. rewrite (loop_open env n (S i) _ _ l) by done. world_simpl.
  destruct (decide (n ≤ length l));
    [rewrite !decide_True by lia | rewrite !decide_False by lia]; done.
Qed.

Lemma count_replicate_Dequeue (n : nat) :
  count is_Dequeue (replicate n EvDequeue) = n.
Proof. induction n; simpl; [done | by f_equal]. Qed.

Lemma keeps_queue_nil : keeps_queue [].
Proof. intros w0. exists []. by rewrite app_nil_r. Qed.

Lemma keeps_queue_ips_Close (ds : list (World → World)) :
  keeps_queue ds → keeps_queue ((λ w0, (ips_Close w0).2) :: ds).
Proof.
  intros H [fs0 o0 q0 c0 t0].
  unfold run_deferred. simpl.
  destruct q0 as [q0|]; simpl;
    match goal with |- context [fold_left _ ds ?W] =>
      destruct (H W) as (t' & Ht & Hc & Hi & Hcfg) end;
    unfold run_deferred in *; simpl in *;
    exists (EvIPSClose :: t'); rewrite Ht, <- app_assoc; done.
Qed.

Lemma keeps_queue_builder_Close (ds : list (World → World)) :
  keeps_queue ds → keeps_queue ((λ w0, (vimgBuilder_Close w0).2) :: ds).
Proof.
  intros H [fs0 o0 q0 c0 t0].
  unfold run_deferred. simpl.
  match goal with |- context [fold_left _ ds ?W] =>
    destruct (H W) as (t' & Ht & Hc & Hi & Hcfg) end.
  unfold run_deferred in *; simpl in *.
  exists (EvBuilderClose :: t'); rewrite Ht, <- app_assoc; done.
Qed.

(** What a build does to the interfaces and to the queue. *)
Lemma buildFirecracker_alloc (env : Env) (f : string) (w w' : World)
    (l : list string) (r : result string) :
  allocator env w = Some l →
  buildFirecracker env f w = (r, w') →
  let N := length (Networks (w_cfg w)) in
  Networks (w_cfg w') = resolve_from 0 (take N l) (Networks (w_cfg w))
  ∧ count is_Dequeue (events w w')
    = (if decide (N ≤ length l) then N else S (length l))
  ∧ (N ≤ length l ∨ r = Err ErrEmpty)
  ∧ (0 < N → items <$> w_ips w' = Some (drop N l)).
Proof.
  destruct w as [fs o q [nets vm] t]. unfold allocator. simpl.
  intros Hal.
  assert (Hloop : ∃ pre ds fs',
    for_range_from 0 (length nets) (resolve_network env)
      (mkWorld fs o q (mkVCFG nets vm) t) [] =
    (if decide (length nets ≤ length l) then Ok tt else Err ErrEmpty,
     mkWorld fs' o
       (if decide (0 < length nets)
        then Some (mkQueue (drop (length nets) l) true) else q)
       (mkVCFG (resolve_from 0 (take (length nets) l) nets) vm)
       (t ++ pre ++
          replicate (if decide (length nets ≤ length l)
                     then length nets else S (length l)) EvDequeue),
     ds)
    ∧ count is_Dequeue pre = 0 ∧ keeps_queue ds).
  { destruct q as [[l0 op]|]; simpl in Hal.
    - destruct op; [|done]. injection Hal as ->.
      exists [], [], fs. rewrite (loop_open env _ 0 _ [] l) by done. simpl.
      split; [|split; [done | apply keeps_queue_nil]].
      destruct nets; simpl; [by rewrite drop_0 | done].
    - destruct (NewIPStack env) as [e|l0] eqn:Hl; [done|]. injection Hal as ->.
      destruct nets as [|n0 nets].
      + exists [], [], fs. simpl. rewrite app_nil_r.
        split; [done|]. split; [done | apply keeps_queue_nil].
      + exists [EvNewIPStack], [λ w0, (ips_Close w0).2], (NewIPStack_fs env fs).
        change (length (n0 :: nets)) with (S (length nets)).
        rewrite (loop_lazy env _ 0 _ [] l) by done. simpl.
        split; [done|]. split; [done|].
        apply keeps_queue_ips_Close, keeps_queue_nil. }
  destruct Hloop as (pre & ds & fs' & Hloop & Hpre & Hds).
  unfold buildFirecracker, func, for_range.
  unfold bind at 1. unfold gets. unfold bind at 1. simpl.
  rewrite Hloop. clear Hloop.
  set (k := if decide (length nets ≤ length l) then length nets
            else S (length l)).
  set (q' := if decide (0 < length nets)
             then Some (mkQueue (drop (length nets) l) true) else q).
  assert (Hfin : ∀ (post : list Event) (r0 : result string)
                   (ds0 : list (World → World)) (W : World),
    W = mkWorld fs' o q' (mkVCFG (resolve_from 0 (take (length nets) l) nets) vm)
                ((t ++ pre ++ replicate k EvDequeue) ++ post) →
    count is_Dequeue post = 0 → keeps_queue ds0 →
    (length nets ≤ length l ∨ r0 = Err ErrEmpty) →
    (r0, run_deferred ds0 W) = (r, w') →
    Networks (w_cfg w') = resolve_from 0 (take (length nets) l) nets
    ∧ count is_Dequeue
        (events (mkWorld fs o q (mkVCFG nets vm) t) w') = k
    ∧ (length nets ≤ length l ∨ r = Err ErrEmpty)
    ∧ (0 < length nets → items <$> w_ips w' = Some (drop (length nets) l))).
  { intros post r0 ds0 W -> Hpost Hk Hr [= <- <-].
    destruct (Hk (mkWorld fs' o q'
                (mkVCFG (resolve_from 0 (take (length nets) l) nets) vm)
                ((t ++ pre ++ replicate k EvDequeue) ++ post)))
      as (t' & Ht & Hc & Hi & Hcfg).
    simpl in *. rewrite Hcfg, Hi. simpl.
    split; [done|]. split; [|split; [done|]].
    - erewrite events_eq; [|simpl; rewrite Ht, <- !app_assoc; reflexivity].
      rewrite !count_app, Hpre, Hpost, Hc, count_replicate_Dequeue. lia.
    - intros HN. subst q'. by rewrite decide_True by done. }
  assert (Hr : length nets ≤ length l
               ∨ (if decide (length nets ≤ length l)
                  then Ok tt else Err ErrEmpty) = Err ErrEmpty).
  { destruct (decide _); auto. }
  destruct (if decide (length nets ≤ length l) then Ok tt else Err ErrEmpty)
    as [[]|e] eqn:Hres.
  - assert (Hle : length nets ≤ length l).
    { destruct Hr as [|Hr]; [done | discriminate Hr]. }
    unfold bind, call, defer, ret, vdisk_CreateBuilder, vdisk_NegotiateSize,
      Format_Build.
    destruct (CreateBuilder_err env) as [e|]; world_simpl.
    { apply (Hfin [EvCreateBuilder]); auto. by rewrite <- !app_assoc. }
    destruct (NegotiateSize_err env) as [e|]; world_simpl.
    { apply (Hfin [EvCreateBuilder; EvNegotiateSize]);
        auto using keeps_queue_builder_Close. by rewrite <- !app_assoc. }
    destruct (Build_err env) as [e|]; world_simpl.
    { apply (Hfin [EvCreateBuilder; EvNegotiateSize; EvBuild f]);
        auto using keeps_queue_builder_Close. by rewrite <- !app_assoc. }
    apply (Hfin [EvCreateBuilder; EvNegotiateSize; EvBuild f]);
      auto using keeps_queue_builder_Close. by rewrite <- !app_assoc.
  - apply (Hfin []); auto.
    + by rewrite app_nil_r.
    + destruct Hr as [Hr|Hr]; [by left | right; congruence].
Qed.

(** ** Addresses of a firecracker build *)




(** C10. When the queue runs out after [k] addresses, with more than [k]
    interfaces declared, [buildFirecracker] returns the queue's error, and
    the configuration keeps what the loop has written: the first [k]
    interfaces hold their address, the gateway and the mask, the others
    are as they were. Nothing is rolled back. *)
Theorem partial_assignment_is_kept (env : Env) (f : string)
    (w w' : World) (l : list string) (r : result string) :
  allocator env w = Some l →
  length l < length (Networks (w_cfg w)) →
  buildFirecracker env f w = (r, w') →
  let k := length l in
  r = Err ErrEmpty
  ∧ Networks (w_cfg w')
    = zip_with resolve l (take k (Networks (w_cfg w)))
      ++ drop k (Networks (w_cfg w))
  ∧ count is_Dequeue (events w w') = S k
  ∧ items <$> w_ips w' = Some [].
Proof.
  intros Hal Hlt Hb k.
  destruct (buildFirecracker_alloc env f w w' l r Hal Hb)
    as (Hnets & Hcount & Hr & Hq).
  rewrite decide_False in Hcount by lia.
  rewrite take_ge in Hnets by lia.
  rewrite resolve_from_zip in Hnets.
  destruct Hr as [Hr|Hr]; [lia|].
  repeat split; try done.
  rewrite Hq by lia. by rewrite drop_ge by lia.
Qed.

Lemma partial_assignment_is_kept_witness :
  let w' := (buildFirecracker env_one_address "disk" world0).2 in
  (buildFirecracker env_one_address "disk" world0).1 = Err ErrEmpty
  ∧ Networks (w_cfg w')
    = [mkNetworkInterface "10.26.10.2" "10.26.10.1" "255.255.255.0" 1500;
       mkNetworkInterface "" "" "" 1500].
Proof.
  intros w'.
  destruct (partial_assignment_is_kept env_one_address "disk" world0 w'
              ["10.26.10.2"]
              (buildFirecracker env_one_address "disk" world0).1)
    as (H1 & H2 & _).
  - reflexivity.
  - simpl. lia.
  - vm_compute; reflexivity.
  - split; [exact H1 | exact H2].
Defined.

(** ** The life of the address queue *)

(** A build that creates the queue closes it when it returns, and leaves
    the closed queue in [ips]. *)
Lemma lazily_created_queue_closed_on_return (env : Env) (f : string)
    (w : World) (l : list string) :
  w_ips w = None → NewIPStack env = inr l →
  0 < length (Networks (w_cfg w)) →
  ∃ l', w_ips (buildFirecracker env f w).2 = Some (mkQueue l' false).
Proof.
  destruct w as [fs o q [nets vm] t]. simpl. intros -> Hl Hn.
  destruct nets as [|n0 nets]; [simpl in Hn; lia |].
  unfold buildFirecracker, func, for_range.
  unfold bind at 1. unfold gets. unfold bind at 1.
  change (length (Networks (w_cfg _))) with (S (length nets)).
  rewrite (loop_lazy env _ 0 _ [] l) by done.
  destruct (decide (S (length nets) ≤ length l)).
  - unfold bind, call, defer, ret, vdisk_CreateBuilder, vdisk_NegotiateSize,
      Format_Build, vimgBuilder_Close, ips_Close.
    destruct (CreateBuilder_err env), (NegotiateSize_err env), (Build_err env);
      unfold run_deferred; simpl; eauto.
  - unfold run_deferred, ips_Close; simpl; eauto.
Qed.

(** A build that declares a network and finds a closed queue in [ips]
    fails at its first dequeue, whatever the queue holds. *)
Lemma closed_queue_fails_build (env : Env) (f : string) (w : World)
    (l : list string) :
  w_ips w = Some (mkQueue l false) →
  0 < length (Networks (w_cfg w)) →
  (buildFirecracker env f w).1 = Err ErrDBClosed
  ∧ w_ips (buildFirecracker env f w).2 = Some (mkQueue l false).
Proof.
  destruct w as [fs o q [nets vm] t]. simpl. intros -> Hn.
  destruct nets as [|n0 nets]; [simpl in Hn; lia |].
  unfold buildFirecracker, func, for_range.
  unfold bind at 1. unfold gets. unfold bind at 1. simpl.
  unfold resolve_network. loop_unfold. simpl. done.
Qed.

(** In one process, every build with a network that comes after the build
    that created the queue fails, although addresses remain. *)
Lemma later_builds_find_queue_closed (env : Env) (f1 f2 : string)
    (w : World) (l : list string) (c2 : VCFG) :
  w_ips w = None → NewIPStack env = inr l →
  0 < length (Networks (w_cfg w)) → 0 < length (Networks c2) →
  (buildFirecracker env f2 (set_cfg c2 (buildFirecracker env f1 w).2)).1
  = Err ErrDBClosed.
Proof.
  intros Hq Hl Hn Hn2.
  destruct (lazily_created_queue_closed_on_return env f1 w l Hq Hl Hn)
    as [l' Hl'].
  destruct (buildFirecracker env f1 w).2 as [fs1 o1 q1 c1 t1]. simpl in *.
  subst q1. by apply (closed_queue_fails_build env f2 _ l').
Qed.

(** C6 (the code departs from the claim). Two firecracker builds in one
    process, each declaring one interface, with three addresses in the
    queue. The first build creates the queue, takes an address and, on
    returning, closes the queue while [ips] keeps pointing at it. The second
    build finds [ips] set, does not reopen the queue, and its dequeue fails
    on the closed queue although two addresses remain. *)
Theorem second_build_fails_on_closed_queue :
  let first := buildFirecracker env_ok "disk1" world_one_nic in
  let second := buildFirecracker env_ok "disk2" (set_cfg cfg_one_nic first.2) in
  first.1 = Ok "21.3.1"
  ∧ w_ips first.2 = Some (mkQueue ["10.26.10.3"; "10.26.10.4"] false)
  ∧ second.1 = Err ErrDBClosed
  ∧ w_ips second.2 = Some (mkQueue ["10.26.10.3"; "10.26.10.4"] false)
  ∧ Networks (w_cfg second.2) = [mkNetworkInterface "" "" "" 1500].
Proof. vm_compute. done. Qed.

(** ** Removal of the scratch directory *)

Lemma not_build_MkdirAll : not_build is_MkdirAll.
Proof. by intros []. Qed.

#[export] Hint Resolve not_build_MkdirAll : trace.

(** The three orchestrations that defer [os.RemoveAll(parent)] leave
    nothing at or below the scratch directory, on every exit path after the
    directory was asked for, whatever the virtualizer has put there. *)
Lemma RemoveAll_backends_leave_nothing (b : Backend) (env : Env)
    (name out : string) (w w' : World) (r : result unit) (p : string) :
  b ≠ VMware → b ≠ HyperV →
  orchestrate b env name out w = (r, w') →
  count is_MkdirAll (events w w') = 1 →
  under (scratch env b) p = true →
  w_fs w' !! p = None.
Proof.
  intros Hb1 Hb2. destruct w as [fs o q c t]. destruct b; try done.
  all: orch_run env.
  all: intros [= <- <-]; events_norm; simpl.
  all: try (destruct (String.eqb out "")); count_norm.
  all: intros Hn Hp; try discriminate Hn.
  all: by apply fs_RemoveAll_gone.
Qed.

Lemma RemoveAll_backends_remove_scratch_and_disk (b : Backend) (env : Env)
    (name out : string) (w w' : World) (r : result unit) :
  b ≠ VMware → b ≠ HyperV →
  orchestrate b env name out w = (r, w') →
  count is_MkdirAll (events w w') = 1 →
  w_fs w' !! scratch env b = None ∧ w_fs w' !! disk_file env b = None.
Proof.
  intros Hb1 Hb2 Hrun Hn.
  split; eapply RemoveAll_backends_leave_nothing; eauto using under_refl.
  destruct b; try done; apply under_Join.
Qed.

(** C1 (the code departs from the claim). [runVMware] creates the scratch
    directory and the disk file, every step succeeds, and the virtualizer
    leaves its lock directory next to the disk. When the call returns the
    disk file is gone but the scratch directory is still there:
    [os.Remove(parent)] fails on a directory that is not empty, and
    [runVMware] does not defer the [os.RemoveAll(parent)] that [runQEMU]
    defers; on the same host [runQEMU] leaves nothing. *)
Theorem vmware_scratch_directory_survives :
  let w' := (runVMware env_lock "vm" "" world0).2 in
  (runVMware env_lock "vm" "" world0).1 = Ok tt
  ∧ count is_Create (events world0 w') = 1
  ∧ w_fs w' !! "/tmp/vmware-a1b2c3d4e5/disk.vmdk" = None
  ∧ w_fs w' !! "/tmp/vmware-a1b2c3d4e5" = Some Dir
  ∧ w_fs w' !! "/tmp/vmware-a1b2c3d4e5/disk.vmdk.lck" = Some Dir
  ∧ w_fs (runQEMU env_lock "vm" "" world0).2 = ∅.
Proof. vm_compute. done. Qed.

(** ** Finalizing twice *)

Lemma length_append (a b : string) :
  String.length (a +:+ b) = String.length a + String.length b.
Proof.
  induction a as [|c a IH]; [done |].
  change (String c a +:+ b) with (String c (a +:+ b)). simpl. by rewrite IH.
Qed.

Lemma prefix_length (a b : string) :
  String.prefix a b = true → String.length a ≤ String.length b.
Proof.
  revert b. induction a as [|c a IH]; intros b H; simpl; [lia |].
  destruct b as [|c' b]; simpl in H; [done |].
  destruct (Ascii.ascii_dec c c'); [|done].
  apply IH in H. simpl. lia.
Qed.

Lemma in_dir_length (d p : string) :
  in_dir d p = true → String.length d < String.length p.
Proof.
  unfold in_dir. intros H%prefix_length. rewrite length_append in H.
  simpl in H. lia.
Qed.

Lemma in_dir_ne (d p : string) : in_dir d p = true → p ≠ d.
Proof. intros H%in_dir_length ->. lia. Qed.

Lemma in_dir_asym (d p : string) : in_dir d p = true → in_dir p d = false.
Proof.
  intros H%in_dir_length. destruct (in_dir p d) eqn:E; [|done].
  apply in_dir_length in E. lia.
Qed.

Lemma fs_Remove_settled (x : string) (m : gmap string node) :
  settled x (fs_Remove x m).2.
Proof.
  unfold fs_Remove, settled.
  destruct (m !! x) as [[|]|] eqn:E; simpl; auto.
  - left. apply lookup_delete_eq.
  - destruct (has_children x m) eqn:Hc; simpl; auto.
    left. apply lookup_delete_eq.
Qed.

Lemma fs_Remove_id (x : string) (m : gmap string node) :
  settled x m → (fs_Remove x m).2 = m.
Proof.
  unfold fs_Remove. intros [H|[H Hc]]; rewrite H; [done |]. by rewrite Hc.
Qed.

Lemma fs_Rename_id (ok : bool) (src dst : string) (m : gmap string node) :
  settled src m → (fs_Rename ok src dst m).2 = m.
Proof. unfold fs_Rename. by intros [H|[H _]]; rewrite H. Qed.

Lemma has_children_delete (x p : string) (m : gmap string node) :
  in_dir x p = false → has_children x (delete p m) = has_children x m.
Proof.
  intros H. unfold has_children, children.
  rewrite map_filter_delete, delete_id; [done |].
  apply map_lookup_filter_None. right. intros n _. simpl. congruence.
Qed.

Lemma settled_Remove_other (x p : string) (m : gmap string node) :
  x ≠ p → in_dir x p = false → settled x m → settled x (fs_Remove p m).2.
Proof.
  intros Hne Hdir Hs.
  assert (Hdel : settled x (delete p m)).
  { destruct Hs as [H|[H Hc]]; [left | right].
    - by rewrite lookup_delete_ne.
    - by rewrite lookup_delete_ne, has_children_delete. }
  unfold fs_Remove. destruct (m !! p) as [[|]|]; simpl; auto.
  destruct (has_children p m); simpl; auto.
Qed.

Lemma cleanup_fs_idempotent (env : Env) (f parent out : string)
    (m : gmap string node) :
  in_dir parent f = true →
  cleanup_fs env f parent out (cleanup_fs env f parent out m)
  = cleanup_fs env f parent out m.
Proof.
  intros Hdir. unfold cleanup_fs.
  set (A := if String.eqb out "" then m
            else (fs_Rename (Rename_ok env) f out m).2).
  set (B := (fs_Remove f A).2). set (C := (fs_Remove parent B).2).
  assert (HfC : settled f C).
  { apply settled_Remove_other;
      [by apply in_dir_ne | by apply in_dir_asym | apply fs_Remove_settled]. }
  assert (HpC : settled parent C) by apply fs_Remove_settled.
  assert (HA : (if String.eqb out "" then C
                else (fs_Rename (Rename_ok env) f out C).2) = C).
  { destruct (String.eqb out ""); [done | by apply fs_Rename_id]. }
  rewrite HA, (fs_Remove_id f C HfC). by apply fs_Remove_id.
Qed.

Lemma fs_RemoveAll_idempotent (p : string) (m : gmap string node) :
  fs_RemoveAll p (fs_RemoveAll p m) = fs_RemoveAll p m.
Proof.
  unfold fs_RemoveAll. apply map_eq. intros i. apply option_eq. intros n.
  rewrite !map_lookup_filter_Some. tauto.
Qed.

Lemma open_after_two_closes (f : string) (o : gset string) :
  (({[f]} ∪ o) ∖ {[f]}) ∖ {[f]} = o ∖ {[f]}.
Proof.
  rewrite difference_twice_L, difference_union_distr_l_L, difference_diag_L.
  apply (left_id_L ∅ (∪)).
Qed.

(** C9. Running the deferred closure a second time, when the handle is
    already closed and the file and the directory already removed, returns
    no error and changes neither the file system nor the set of open
    handles, the queue or the configuration; a second [os.RemoveAll] changes
    nothing either. In an orchestration whose virtualizer was started and
    reported success, the file is closed twice (by the explicit close and
    by the deferred closure), the handle is released once, and the call
    returns nil. *)
Theorem finalizing_twice_is_harmless :
  (∀ (env : Env) (f parent out : string) (w : World),
     in_dir parent f = true →
     let w1 := (cleanup env f parent out w).2 in
     let w2 := (cleanup env f parent out w1).2 in
     (cleanup env f parent out w1).1 = Ok tt
     ∧ w_fs w2 = w_fs w1 ∧ w_open w2 = w_open w1
     ∧ w_ips w2 = w_ips w1 ∧ w_cfg w2 = w_cfg w1
     ∧ w_fs (os_RemoveAll parent (os_RemoveAll parent w2).2).2
       = w_fs (os_RemoveAll parent w2).2)
  ∧ (∀ (b : Backend) (env : Env) (name out : string) (w w' : World)
       (r : result unit),
     orchestrate b env name out w = (r, w') →
     count is_Run (events w w') = 1 → run_err env = None →
     r = Ok tt
     ∧ count is_FileClose (events w w') = 2
     ∧ w_open w' = w_open w ∖ {[disk_file env b]}).
Proof.
  split.
  - intros env f parent out [fs o q c t] Hdir. simpl.
    rewrite !cleanup_spec. simpl. rewrite cleanup_fs_idempotent by done.
    repeat split; try done; [apply difference_twice_L |].
    unfold os_RemoveAll. simpl. apply fs_RemoveAll_idempotent.
  - intros b env name out [fs o q c t] w' r. destruct b.
    all: orch_run env.
    all: intros [= <- <-]; events_norm.
    all: destruct (String.eqb out ""); count_norm.
    all: intros Hn Hr; try discriminate Hn; try discriminate Hr.
    all: repeat split; try done; apply open_after_two_closes.
Qed.

Lemma finalizing_twice_is_harmless_witness :
  let f := "/tmp/qemu-a1b2c3d4e5/vorteil.disk042" in
  let parent := "/tmp/qemu-a1b2c3d4e5" in
  let w := {| w_fs := {[parent := Dir; f := File]}; w_open := {[f]};
              w_ips := None; w_cfg := cfg_two_nics; w_trace := [] |} in
  let w1 := (cleanup env_ok f parent "" w).2 in
  let w2 := (cleanup env_ok f parent "" w1).2 in
  in_dir parent f = true
  ∧ w_fs w1 = ∅ ∧ w_open w1 = ∅
  ∧ (cleanup env_ok f parent "" w1).1 = Ok tt
  ∧ w_fs w2 = w_fs w1 ∧ w_open w2 = w_open w1.
Proof.
  intros f parent w w1 w2.
  assert (Hdir : in_dir parent f = true) by reflexivity.
  destruct finalizing_twice_is_harmless as [H _].
  destruct (H env_ok f parent "" w Hdir) as (H1 & H2 & H3 & _).
  split; [exact Hdir |].
  split; [vm_compute; reflexivity |].
  split; [vm_compute; reflexivity |].
  split; [exact H1 |]. split; [exact H2 | exact H3].
Defined.

(** ** A build, step by step *)

Lemma build_tail (env : Env) (f : string) (w : World)
    (ds : list (World → World)) :
  (call (vdisk_CreateBuilder env) ;;
   defer vimgBuilder_Close ;;
   call (vdisk_NegotiateSize env) ;;
   call (Format_Build env f) ;;
   ret (KernelUsed env)) w ds
  = (build_result env,
     mkWorld (w_fs w) (w_open w) (w_ips w) (w_cfg w)
       (w_trace w ++ build_steps env f),
     match CreateBuilder_err env with
     | Some _ => ds
     | None => (λ w0, (vimgBuilder_Close w0).2) :: ds
     end).
Proof.
  destruct w as [fs o q c t].
  unfold bind, call, defer, ret, vdisk_CreateBuilder, vdisk_NegotiateSize,
    Format_Build, build_result, build_steps.
  destruct (CreateBuilder_err env), (NegotiateSize_err env), (Build_err env);
    world_simpl; reflexivity.
Qed.

Lemma buildFirecracker_supplied (env : Env) (f : string) (w : World)
    (l : list string) :
  allocator env w = Some l →
  length (Networks (w_cfg w)) ≤ length l →
  buildFirecracker env f w =
    (build_result env,
     mkWorld (if creates_queue w then NewIPStack_fs env (w_fs w) else w_fs w)
       (w_open w)
       (if creates_queue w
        then Some (mkQueue (drop (length (Networks (w_cfg w))) l) false)
        else match w_ips w with
             | None => None
             | Some _ =>
                 Some (mkQueue (drop (length (Networks (w_cfg w))) l) true)
             end)
       (mkVCFG (resolve_from 0 (take (length (Networks (w_cfg w))) l)
                  (Networks (w_cfg w)))
               (VM (w_cfg w)))
       (w_trace w ++ (if creates_queue w then [EvNewIPStack] else [])
          ++ replicate (length (Networks (w_cfg w))) EvDequeue
          ++ build_steps env f ++ builder_release env
          ++ (if creates_queue w then [EvIPSClose] else []))).
Proof.
  destruct w as [fs o q [nets vm] t]. unfold allocator, creates_queue. simpl.
  intros Hal Hle.
  unfold buildFirecracker, func, for_range.
  unfold bind at 1. unfold gets. unfold bind at 1. simpl.
  destruct q as [[l0 op]|]; simpl in Hal.
  - destruct op; [|done]. injection Hal as ->.
    rewrite (loop_open env _ 0 _ [] l) by done.
    rewrite !decide_True by done. simpl.
    rewrite build_tail. unfold builder_release, build_steps, run_deferred.
    destruct (CreateBuilder_err env); world_simpl;
      rewrite ?app_nil_r, <- ?app_assoc; reflexivity.
  - destruct (NewIPStack env) as [e|l0] eqn:Hl; [done|]. injection Hal as ->.
    destruct nets as [|n0 nets].
    + simpl. unfold ret. rewrite build_tail.
      unfold builder_release, build_steps, run_deferred.
      destruct (CreateBuilder_err env); world_simpl;
        rewrite ?app_nil_r, <- ?app_assoc; reflexivity.
    + change (length (n0 :: nets)) with (S (length nets)) in *.
      rewrite (loop_lazy env _ 0 _ [] l) by done.
      rewrite !decide_True by done.
      rewrite build_tail.
      unfold builder_release, build_steps, run_deferred, ips_Close.
      destruct (CreateBuilder_err env); world_simpl;
        rewrite ?app_nil_r, <- ?app_assoc; reflexivity.
Qed.

Lemma count_replicate_other (p : Event → bool) (e : Event) (n : nat) :
  p e = false → count p (replicate n e) = 0.
Proof. intros H. induction n; simpl; [done | by rewrite H]. Qed.

Lemma in_order_replicate_other (p : Event → bool) (ps : list (Event → bool))
    (e : Event) (n : nat) (t : list Event) :
  p e = false →
  in_order (p :: ps) (replicate n e ++ t) = in_order (p :: ps) t.
Proof. intros H. induction n; simpl; [done | by rewrite H]. Qed.

(** X1. A build whose configuration declares no network interface never
    touches the address queue: [iputil.NewIPStack] is not called, nothing is
    dequeued, no close of the queue is deferred, and [ips] and the
    configuration are left as they were, also when the queue is closed or
    could not be opened. The image builder is created once, and the build
    returns the error of the first of its steps that fails, the kernel
    version when none does. *)
Theorem build_without_networks_skips_allocator (env : Env) (f : string)
    (w w' : World) (r : result string) :
  Networks (w_cfg w) = [] →
  buildFirecracker env f w = (r, w') →
  r = build_result env
  ∧ w_ips w' = w_ips w ∧ w_cfg w' = w_cfg w
  ∧ count is_NewIPStack (events w w') = 0
  ∧ count is_Dequeue (events w w') = 0
  ∧ count is_IPSClose (events w w') = 0
  ∧ count is_CreateBuilder (events w w') = 1.
Proof.
  destruct w as [fs o q [nets vm] t]. simpl. intros ->.
  unfold buildFirecracker, func, for_range.
  unfold bind at 1. unfold gets. unfold bind at 1. simpl. unfold ret.
  rewrite build_tail. unfold build_steps, run_deferred.
  intros [= <- <-].
  destruct (CreateBuilder_err env), (NegotiateSize_err env), (Build_err env);
    world_simpl; events_norm; done.
Qed.

Lemma build_without_networks_skips_allocator_witness :
  let w := set_ips (Some (mkQueue ["10.26.10.2"] false)) world_no_nics in
  let w' := (buildFirecracker env_ok "disk" w).2 in
  (buildFirecracker env_ok "disk" w).1 = Ok "21.3.1"
  ∧ w_ips w' = Some (mkQueue ["10.26.10.2"] false)
  ∧ count is_Dequeue (events w w') = 0.
Proof.
  intros w w'.
  destruct (build_without_networks_skips_allocator env_ok "disk" w w'
              (buildFirecracker env_ok "disk" w).1)
    as (H1 & H2 & _ & _ & H3 & _).
  - reflexivity.
  - vm_compute; reflexivity.
  - split; [exact H1 |]. split; [exact H2 | exact H3].
Defined.

(** X2. When [ips] is nil, a network interface is declared and
    [iputil.NewIPStack] fails, [buildFirecracker] returns that error at
    once. The call of [NewIPStack] is the only call it has made: nothing is
    dequeued, no close is deferred, no image builder is created; the
    configuration, the file system and the open handles are untouched. *)
Theorem allocator_failure_aborts_build (env : Env) (f : string)
    (w w' : World) (r : result string) (e : error) :
  w_ips w = None → NewIPStack env = inl e → Networks (w_cfg w) ≠ [] →
  buildFirecracker env f w = (r, w') →
  r = Err e
  ∧ events w w' = [EvNewIPStack]
  ∧ w_cfg w' = w_cfg w ∧ w_fs w' = w_fs w ∧ w_open w' = w_open w.
Proof.
  destruct w as [fs o q [nets vm] t]. simpl. intros -> He Hn.
  destruct nets as [|n0 nets]; [done |].
  unfold buildFirecracker, func, for_range.
  unfold bind at 1. unfold gets. unfold bind at 1. simpl.
  unfold bind at 1. unfold resolve_network at 1. loop_unfold.
  simpl. rewrite He. simpl. unfold run_deferred. simpl.
  intros [= <- <-]. events_norm. done.
Qed.

Lemma allocator_failure_aborts_build_witness :
  let w' := (buildFirecracker env_no_stack "disk" world0).2 in
  (buildFirecracker env_no_stack "disk" world0).1
    = Err "resource temporarily unavailable"
  ∧ events world0 w' = [EvNewIPStack]
  ∧ w_cfg w' = cfg_two_nics.
Proof.
  intros w'.
  destruct (allocator_failure_aborts_build env_no_stack "disk" world0 w'
              (buildFirecracker env_no_stack "disk" world0).1
              "resource temporarily unavailable")
    as (H1 & H2 & H3 & _).
  - reflexivity.
  - reflexivity.
  - discriminate.
  - vm_compute; reflexivity.
  - split; [exact H1 |]. split; [exact H2 | exact H3].
Defined.

(** X3. When the allocator supplies every declared interface,
    [buildFirecracker] returns the error of the first of
    [vdisk.CreateBuilder], [vdisk.NegotiateSize] and [Format.Build] that
    fails, and the kernel version when none does. No step runs after one
    that failed; every dequeue comes before the builder is created; the
    builder is closed exactly when it was created, after its last use, and
    never after the queue was closed. *)
Theorem build_reports_first_failing_step (env : Env) (f : string)
    (w w' : World) (l : list string) (r : result string) :
  allocator env w = Some l →
  length (Networks (w_cfg w)) ≤ length l →
  buildFirecracker env f w = (r, w') →
  r = build_result env
  ∧ count is_CreateBuilder (events w w') = 1
  ∧ count is_NegotiateSize (events w w')
    = (if CreateBuilder_err env is Some _ then 0 else 1)
  ∧ count is_Build (events w w')
    = (if first_failure [CreateBuilder_err env; NegotiateSize_err env]
       is Some _ then 0 else 1)
  ∧ count is_BuilderClose (events w w')
    = (if CreateBuilder_err env is Some _ then 0 else 1)
  ∧ in_order [is_CreateBuilder; is_Dequeue] (events w w') = false
  ∧ in_order [is_BuilderClose; is_NegotiateSize] (events w w') = false
  ∧ in_order [is_BuilderClose; is_Build] (events w w') = false
  ∧ in_order [is_IPSClose; is_BuilderClose] (events w w') = false.
Proof.
  intros Hal Hle. rewrite (buildFirecracker_supplied env f w l Hal Hle).
  intros [= <- <-]. split; [done |].
  erewrite events_eq; [| reflexivity].
  unfold build_steps, builder_release.
  destruct (creates_queue w); simpl.
  all: rewrite ?count_app, ?count_replicate_other by done.
  all: rewrite ?in_order_replicate_other by done.
  all: destruct (CreateBuilder_err env), (NegotiateSize_err env),
         (Build_err env); done.
Qed.

Lemma build_reports_first_failing_step_witness :
  let w' := (buildFirecracker env_ok "disk" world0).2 in
  (buildFirecracker env_ok "disk" world0).1 = Ok "21.3.1"
  ∧ count is_BuilderClose (events world0 w') = 1
  ∧ in_order [is_BuilderClose; is_Build] (events world0 w') = false.
Proof.
  intros w'.
  destruct (build_reports_first_failing_step env_ok "disk" world0 w'
              ["10.26.10.2"; "10.26.10.3"; "10.26.10.4"]
              (buildFirecracker env_ok "disk" world0).1)
    as (H1 & _ & _ & _ & H2 & _ & _ & H3 & _).
  - reflexivity.
  - simpl. lia.
  - vm_compute; reflexivity.
  - split; [exact H1 |]. split; [exact H2 | exact H3].
Defined.

Lemma loop_closed (env : Env) (n i : nat) (w : World)
    (ds : list (World → World)) (l : list string) :
  w_ips w = Some (mkQueue l false) →
  for_range_from i (S n) (resolve_network env) w ds
  = (Err ErrDBClosed, log EvDequeue w, ds).
Proof.
  destruct w as [fs o q c t]. simpl. intros ->.
  unfold bind at 1. unfold resolve_network at 1. loop_unfold. reflexivity.
Qed.

Lemma loop_no_stack (env : Env) (n i : nat) (w : World)
    (ds : list (World → World)) (e : error) :
  w_ips w = None → NewIPStack env = inl e →
  for_range_from i (S n) (resolve_network env) w ds
  = (Err e, log EvNewIPStack w, ds).
Proof.
  destruct w as [fs o q c t]. simpl. intros -> He.
  unfold bind at 1. unfold resolve_network at 1. loop_unfold.
  simpl. rewrite He. reflexivity.
Qed.

(** Whatever the queue, a build rewrites the interfaces with some
    addresses, from the first interface on. *)
Lemma buildFirecracker_networks (env : Env) (f : string) (w : World) :
  ∃ l', Networks (w_cfg (buildFirecracker env f w).2)
        = resolve_from 0 l' (Networks (w_cfg w)).
Proof.
  destruct w as [fs o q [nets vm] t].
  unfold buildFirecracker, func, for_range.
  unfold bind at 1. unfold gets. unfold bind at 1. simpl.
  assert (Htail : ∀ W ds,
    (∀ w0, w_cfg (run_deferred ds w0) = w_cfg w0) →
    w_cfg (let '(r, w', ds') :=
             (call (vdisk_CreateBuilder env) ;;
              defer vimgBuilder_Close ;;
              call (vdisk_NegotiateSize env) ;;
              call (Format_Build env f) ;;
              ret (KernelUsed env)) W ds in (r, run_deferred ds' w')).2
    = w_cfg W).
  { intros W ds Hds. rewrite build_tail.
    destruct (CreateBuilder_err env); simpl; rewrite ?Hds; [done |].
    unfold run_deferred in *. simpl. rewrite Hds. by destruct W. }
  destruct nets as [|n0 nets].
  { exists []. simpl. unfold ret. by rewrite Htail. }
  change (length (n0 :: nets)) with (S (length nets)).
  destruct q as [[l [|]]|].
  - exists (take (S (length nets)) l).
    rewrite (loop_open env _ 0 _ [] l) by done.
    destruct (decide (S (length nets) ≤ length l)); [|done].
    by rewrite Htail.
  - exists []. by rewrite (loop_closed env _ 0 _ [] l).
  - destruct (NewIPStack env) as [e|l] eqn:Hl.
    + exists []. by rewrite (loop_no_stack env _ 0 _ [] e).
    + exists (take (S (length nets)) l).
      rewrite (loop_lazy env _ 0 _ [] l) by done.
      destruct (decide (S (length nets) ≤ length l)).
      * rewrite Htail; [done |]. intros [? ? [?|] ? ?]; done.
      * unfold run_deferred, ips_Close. done.
Qed.

(** X4. Whatever the state of the queue and whichever step fails,
    [buildFirecracker] keeps the number of interfaces of the configuration
    and the MTU of each, and never leaves an interface half written: an
    interface is either exactly as it was, or it carries the bridge address
    as gateway and the mask 255.255.255.0. *)
Theorem build_touches_only_addresses (env : Env) (f : string)
    (w w' : World) (r : result string) :
  buildFirecracker env f w = (r, w') →
  length (Networks (w_cfg w')) = length (Networks (w_cfg w))
  ∧ ∀ i n n',
      Networks (w_cfg w) !! i = Some n →
      Networks (w_cfg w') !! i = Some n' →
      MTU n' = MTU n
      ∧ (n' = n ∨ (Gateway n' = BridgeIP ∧ Mask n' = "255.255.255.0")).
Proof.
  intros Hb.
  destruct (buildFirecracker_networks env f w) as [l' Hn].
  rewrite Hb in Hn. simpl in Hn.
  split; [by rewrite Hn, resolve_from_length |].
  intros i n n' Hi Hi'. rewrite Hn, resolve_from_lookup, Hi in Hi'.
  destruct (l' !! (i - 0)); [destruct (decide (0 ≤ i)) |];
    simpl in Hi'; injection Hi' as <-; auto.
Qed.

Lemma build_touches_only_addresses_witness :
  let w' := (buildFirecracker env_one_address "disk" world0).2 in
  length (Networks (w_cfg w')) = 2
  ∧ (MTU <$> Networks (w_cfg w') !! 0 = Some 1500
     ∧ Gateway <$> Networks (w_cfg w') !! 0 = Some "10.26.10.1")
  ∧ Networks (w_cfg w') !! 1 = Some (mkNetworkInterface "" "" "" 1500).
Proof.
  intros w'.
  destruct (build_touches_only_addresses env_one_address "disk" world0 w'
              (buildFirecracker env_one_address "disk" world0).1)
    as (H1 & _).
  - vm_compute; reflexivity.
  - split; [exact H1 |]. vm_compute. done.
Defined.

(** ** The queue after the build that created it *)

Lemma build_series_closed (env : Env) (reqs : list (string * VCFG)) :
  ∀ (w : World) (l : list string),
    w_ips w = Some (mkQueue l false) →
    Forall (λ fc, Networks fc.2 ≠ []) reqs →
    build_series env reqs w = replicate (length reqs) (Err ErrDBClosed).
Proof.
  induction reqs as [|[f c] reqs IH]; intros w l Hq Hn; [done |].
  apply Forall_cons in Hn as [Hc Hn]. simpl in Hc.
  destruct (closed_queue_fails_build env f (set_cfg c w) l) as [H1 H2].
  - by destruct w.
  - destruct w. simpl. destruct (Networks c); [done | simpl; lia].
  - simpl. rewrite H1. f_equal. by apply (IH _ l).
Qed.

(** X5. The build that creates the queue leaves it closed in [ips] when it
    returns, holding the addresses the build did not take; and the queue is
    never opened again: every build with a network interface that follows
    in the same process, however many there are, fails with the
    closed-database error of the queue. *)
Theorem queue_never_reopens (env : Env) (f : string) (w : World)
    (l : list string) (reqs : list (string * VCFG)) :
  w_ips w = None → NewIPStack env = inr l →
  Networks (w_cfg w) ≠ [] →
  Forall (λ fc, Networks fc.2 ≠ []) reqs →
  (∃ l', w_ips (buildFirecracker env f w).2 = Some (mkQueue l' false)
         ∧ (length (Networks (w_cfg w)) ≤ length l →
            l' = drop (length (Networks (w_cfg w))) l))
  ∧ build_series env reqs (buildFirecracker env f w).2
    = replicate (length reqs) (Err ErrDBClosed).
Proof.
  intros Hq Hl Hn Hreqs.
  assert (Hpos : 0 < length (Networks (w_cfg w))).
  { destruct (Networks (w_cfg w)); [done | simpl; lia]. }
  destruct (lazily_created_queue_closed_on_return env f w l Hq Hl Hpos)
    as [l' Hl'].
  split.
  - exists l'. split; [done |]. intros Hle.
    assert (Hal : allocator env w = Some l).
    { unfold allocator. by rewrite Hq, Hl. }
    rewrite (buildFirecracker_supplied env f w l Hal Hle) in Hl'.
    unfold creates_queue in Hl'. rewrite Hq in Hl'. simpl in Hl'.
    destruct (Networks (w_cfg w)); [done |]. by injection Hl' as <-.
  - by apply (build_series_closed env reqs _ l').
Qed.

Lemma queue_never_reopens_witness :
  (buildFirecracker env_ok "disk1" world_one_nic).1 = Ok "21.3.1"
  ∧ build_series env_ok [("disk2", cfg_one_nic); ("disk3", cfg_two_nics)]
      (buildFirecracker env_ok "disk1" world_one_nic).2
    = [Err ErrDBClosed; Err ErrDBClosed].
Proof.
  split; [vm_compute; reflexivity |].
  apply (queue_never_reopens env_ok "disk1" world_one_nic
           ["10.26.10.2"; "10.26.10.3"; "10.26.10.4"]
           [("disk2", cfg_one_nic); ("disk3", cfg_two_nics)]).
  - reflexivity.
  - reflexivity.
  - discriminate.
  - repeat constructor; discriminate.
Defined.

(** ** The scratch directory, the relocation and the closure *)

Lemma has_children_none (d : string) (m : gmap string node) :
  (∀ p, in_dir d p = true → m !! p = None) → has_children d m = false.
Proof.
  intros H. unfold has_children, children.
  apply bool_decide_eq_false. intros Hne. apply Hne.
  apply map_empty_filter. intros p n Hp Hd. simpl in Hd.
  rewrite (H p Hd) in Hp. done.
Qed.

Lemma in_dir_irrefl (d : string) : in_dir d d = false.
Proof.
  destruct (in_dir d d) eqn:E; [|done]. apply in_dir_length in E. lia.
Qed.

Lemma under_in_dir (d p : string) : in_dir d p = true → under d p = true.
Proof. unfold under. intros ->. apply orb_true_r. Qed.

Lemma fs_RemoveAll_vacant (d : string) (m : gmap string node) :
  vacant d m → fs_RemoveAll d m = m.
Proof.
  intros H. unfold fs_RemoveAll. apply map_filter_id.
  intros p n Hp. simpl. destruct (under d p) eqn:E; [|done].
  rewrite (H p E) in Hp. done.
Qed.

Lemma fs_RemoveAll_is_vacant (d : string) (m : gmap string node) :
  vacant d (fs_RemoveAll d m).
Proof. intros p Hp. by apply fs_RemoveAll_gone. Qed.

Lemma vacant_insert (d x : string) (n : node) (m : gmap string node) :
  vacant d m → under d x = false → vacant d (<[x := n]> m).
Proof.
  intros H Hx p Hp. rewrite lookup_insert_ne; [by apply H |].
  intros ->. congruence.
Qed.

(** The closure on a scratch directory that holds the disk file and nothing
    else. *)
Lemma cleanup_fs_fresh (env : Env) (f parent out : string)
    (fs : gmap string node) :
  vacant parent fs → in_dir parent f = true → under parent out = false →
  cleanup_fs env f parent out (<[f := File]> (<[parent := Dir]> fs))
  = if relocated env out then <[out := File]> fs else fs.
Proof.
  intros Hv Hf Hout.
  assert (Hfp : f ≠ parent) by by apply in_dir_ne.
  assert (Hfo : f ≠ out).
  { intros ->. apply under_in_dir in Hf. congruence. }
  assert (Hpo : parent ≠ out).
  { intros ->. rewrite under_refl in Hout. done. }
  assert (Hfs_f : fs !! f = None) by (apply Hv; by apply under_in_dir).
  assert (Hfs_p : fs !! parent = None) by (apply Hv; apply under_refl).
  assert (Hdel : delete f (<[f := File]> (<[parent := Dir]> fs))
                 = <[parent := Dir]> fs).
  { rewrite delete_insert_eq. apply delete_id.
    by rewrite lookup_insert_ne. }
  assert (Hkids : ∀ m, (∀ p, in_dir parent p = true → m !! p = None) →
                  m !! parent = Some Dir →
                  (fs_Remove parent m).2 = delete parent m).
  { intros m Hm Hp. unfold fs_Remove. rewrite Hp.
    by rewrite has_children_none. }
  unfold cleanup_fs, relocated.
  destruct (String.eqb out "") eqn:Eout; simpl.
  - unfold fs_Remove at 2. rewrite lookup_insert_eq. simpl. rewrite Hdel.
    rewrite Hkids.
    + rewrite delete_insert_eq. by apply delete_id.
    + intros p Hp. rewrite lookup_insert_ne.
      * apply Hv. by apply under_in_dir.
      * intros ->. by rewrite in_dir_irrefl in Hp.
    + apply lookup_insert_eq.
  - unfold fs_Rename. rewrite lookup_insert_eq.
    destruct (Rename_ok env); simpl.
    + rewrite Hdel. unfold fs_Remove at 2.
      rewrite lookup_insert_ne, lookup_insert_ne, Hfs_f by done. simpl.
      rewrite Hkids.
      * rewrite delete_insert_ne, delete_insert_eq by done.
        f_equal. by apply delete_id.
      * intros p Hp. rewrite lookup_insert_ne.
        -- rewrite lookup_insert_ne; [apply Hv; by apply under_in_dir |].
           intros ->. by rewrite in_dir_irrefl in Hp.
        -- intros ->. apply under_in_dir in Hp. congruence.
      * rewrite lookup_insert_ne by done. apply lookup_insert_eq.
    + unfold fs_Remove at 2. rewrite lookup_insert_eq. simpl. rewrite Hdel.
      rewrite Hkids.
      * rewrite delete_insert_eq. by apply delete_id.
      * intros p Hp. rewrite lookup_insert_ne.
        -- apply Hv. by apply under_in_dir.
        -- intros ->. by rewrite in_dir_irrefl in Hp.
      * apply lookup_insert_eq.
Qed.

Lemma in_dir_disk_file (env : Env) (b : Backend) :
  in_dir (scratch env b) (disk_file env b) = true.
Proof. destruct b; apply in_dir_Join. Qed.

Lemma vacant_relocated (env : Env) (d out : string) (fs : gmap string node) :
  vacant d fs → under d out = false →
  vacant d (if relocated env out then <[out := File]> fs else fs).
Proof. intros. destruct (relocated env out); [by apply vacant_insert | done]. Qed.

(** X6. For an orchestration that does not open the address queue (the
    four that use no queue; [runFirecracker] when no interface is declared
    or [ips] is set already), when the virtualizer leaves the file system
    as it found it, the scratch directory did not exist before and the
    output path lies outside of it: once the disk file was created, on
    every exit path, the file system at return is the file system of the
    start, with the disk at the output path when a path was given and the
    rename could be done, and with nothing else added or removed. In
    particular nothing is left at or below the scratch directory, and when
    the rename fails no copy of the disk survives. *)
Theorem scratch_is_transient (b : Backend) (env : Env) (name out : string)
    (w w' : World) (r : result unit) :
  (∀ d fs, run_fs env d fs = fs) →
  vacant (scratch env b) (w_fs w) →
  under (scratch env b) out = false →
  orchestrate b env name out w = (r, w') →
  count is_NewIPStack (events w w') = 0 →
  Create_err env = None →
  count is_Create (events w w') = 1 →
  w_fs w' = (if relocated env out then <[out := File]> (w_fs w) else w_fs w)
  ∧ vacant (scratch env b) (w_fs w').
Proof.
  intros Hrun Hv Hout Horch Hq Hc Hn.
  cut (w_fs w' = if relocated env out then <[out := File]> (w_fs w)
                 else w_fs w).
  { intros ->. split; [done | by apply vacant_relocated]. }
  revert Horch Hq Hc Hn.
  destruct w as [fs o q c t]. simpl in Hv.
  pose proof (in_dir_disk_file env b) as Hd.
  destruct b; simpl in Hd.
  all: orch_run env.
  all: intros [= <- <-]; events_norm.
  all: try (destruct (String.eqb out "") eqn:Eout); count_norm.
  all: rewrite ?count_app; simpl.
  all: intros Hq Hc Hn; try discriminate Hc; try discriminate Hn.
  all: try (rewrite Hfs in * by lia; clear Hfs).
  all: simpl; rewrite ?Hrun, cleanup_fs_fresh by done.
  all: try reflexivity.
  all: apply fs_RemoveAll_vacant; by apply vacant_relocated.
Qed.

Lemma scratch_is_transient_witness :
  let w' :=
    (orchestrate Firecracker env_ok "vm" "/srv/disk.raw" world_no_nics).2 in
  w_fs w' = {[ "/srv/disk.raw" := File ]}
  ∧ vacant "/tmp/firecracker-a1b2c3d4e5" (w_fs w').
Proof.
  intros w'.
  apply (scratch_is_transient Firecracker env_ok "vm" "/srv/disk.raw"
           world_no_nics w' (Ok tt)).
  - intros d fs. reflexivity.
  - intros p _. apply lookup_empty.
  - reflexivity.
  - vm_compute; reflexivity.
  - vm_compute; reflexivity.
  - reflexivity.
  - vm_compute; reflexivity.
Defined.

(** X7. In [runVMware] and [runHyperV], when the scratch directory was
    created and [os.Create] of the disk file fails, the call returns the
    error of [os.Create] right away: the closure that removes the directory
    is not deferred yet, so the empty scratch directory stays in the file
    system; nothing else has changed and no other call was made. *)
Theorem create_failure_leaves_scratch_directory (b : Backend) (env : Env)
    (name out : string) (w : World) (e : error) :
  b = VMware ∨ b = HyperV →
  supported env b && IsAvailable env b = true →
  MkdirAll_err env = None → Create_err env = Some e →
  orchestrate b env name out w
  = (Err e,
     mkWorld (<[scratch env b := Dir]> (w_fs w)) (w_open w) (w_ips w)
       (w_cfg w)
       (w_trace w ++ [EvMkdirAll (scratch env b); EvCreate (disk_file env b)])).
Proof.
  intros Hb Hs Hm Hc. destruct w as [fs o q c t].
  unfold supported in Hs.
  destruct Hb as [-> | ->]; simpl in Hs;
    [| apply andb_true_iff in Hs as [Hos Hs]].
  all: orch_unfold; simpl.
  all: rewrite ?Hos, Hs, Hm, Hc.
  all: world_simpl; reflexivity.
Qed.

Lemma create_failure_leaves_scratch_directory_witness :
  let w' := (orchestrate HyperV env_no_create "vm" "" world0).2 in
  (orchestrate HyperV env_no_create "vm" "" world0).1
    = Err "too many open files"
  ∧ w_fs w' = {[ "/tmp/hyperv-a1b2c3d4e5" := Dir ]}.
Proof.
  intros w'. subst w'.
  rewrite (create_failure_leaves_scratch_directory HyperV env_no_create "vm"
             "" world0 "too many open files").
  - split; reflexivity.
  - by right.
  - reflexivity.
  - reflexivity.
  - reflexivity.
Defined.

Lemma not_build_RemoveAll p : not_build (is_RemoveAll p).
Proof. by intros []. Qed.

#[export] Hint Resolve not_build_RemoveAll : trace.

Lemma last_app_cons {A} (t1 t2 : list A) (x : A) :
  last (t1 ++ x :: t2) = last (x :: t2).
Proof.
  induction t1 as [|y t1 IH]; [done |].
  simpl. rewrite <- IH. by destruct t1.
Qed.

(** X8. In [runFirecracker], [runVirtualBox] and [runQEMU], on every exit
    path after the scratch directory was asked for, [os.RemoveAll] of the
    scratch directory is called exactly once and is the very last call, so
    after the disk was relocated; nothing is left at or below the scratch
    directory, whatever the virtualizer has put there. *)
Theorem scratch_tree_removed_last (b : Backend) (env : Env)
    (name out : string) (w w' : World) (r : result unit) :
  b = Firecracker ∨ b = VirtualBox ∨ b = QEMU →
  orchestrate b env name out w = (r, w') →
  count is_MkdirAll (events w w') = 1 →
  last (events w w') = Some (EvRemoveAll (scratch env b))
  ∧ count (is_RemoveAll (scratch env b)) (events w w') = 1
  ∧ vacant (scratch env b) (w_fs w').
Proof.
  intros Hb Horch Hn.
  assert (Hv : vacant (scratch env b) (w_fs w')).
  { intros p Hp.
    eapply (RemoveAll_backends_leave_nothing b); eauto;
      destruct Hb as [-> | [-> | ->]]; done. }
  cut (last (events w w') = Some (EvRemoveAll (scratch env b))
       ∧ count (is_RemoveAll (scratch env b)) (events w w') = 1).
  { intros [? ?]. done. }
  clear Hv. revert Horch Hn.
  destruct w as [fs o q c t].
  destruct Hb as [-> | [-> | ->]].
  all: orch_run env.
  all: intros [= <- <-]; events_norm; simpl.
  all: try (destruct (String.eqb out "")); count_norm.
  all: intros Hn; try discriminate Hn.
  all: rewrite ?String.eqb_refl; simpl.
  all: split; [| done].
  all: try reflexivity.
  all: rewrite app_comm_cons, last_app_cons; reflexivity.
Qed.

Lemma scratch_tree_removed_last_witness :
  let w' := (orchestrate VirtualBox env_lock "vm" "" world0).2 in
  last (events world0 w') = Some (EvRemoveAll "/tmp/virtualbox-a1b2c3d4e5")
  ∧ w_fs w' !! "/tmp/virtualbox-a1b2c3d4e5/vorteil.disk042.lck" = None.
Proof.
  intros w'.
  destruct (scratch_tree_removed_last VirtualBox env_lock "vm" "" world0 w'
              (Ok tt)) as (H1 & _ & H2).
  - right. by left.
  - vm_compute; reflexivity.
  - vm_compute; reflexivity.
  - split; [exact H1 |]. apply H2. reflexivity.
Defined.

(** X9. [saveDisk] of a source that is a regular file or absent either
    moves the disk or changes nothing. It returns nil exactly when the
    source is there and the destination can be written; then the
    destination holds the disk, the source path is gone and the message
    "Copied Disk" is logged. Otherwise it returns the error of
    [os.Rename], the file system is unchanged, and the failure is logged
    with the destination and that error. One rename is attempted and one
    message is logged in either case. *)
Theorem saveDisk_all_or_nothing (env : Env) (sourceDisk destDisk : string)
    (w w' : World) (r : result unit) :
  w_fs w !! sourceDisk ≠ Some Dir →
  saveDisk env sourceDisk destDisk w = (r, w') →
  (r = Ok tt
   ∧ w_fs w !! sourceDisk = Some File ∧ Rename_ok env = true
   ∧ w_fs w' = <[destDisk := File]> (delete sourceDisk (w_fs w))
   ∧ events w w' = [EvRename sourceDisk destDisk; EvLog "Copied Disk"])
  ∨ (∃ e, r = Err e
     ∧ (w_fs w !! sourceDisk = None ∨ Rename_ok env = false)
     ∧ w_fs w' = w_fs w
     ∧ events w w'
       = [EvRename sourceDisk destDisk;
          EvLog ("Failed to Copy Disk to '" +:+ destDisk +:+ "' error: " +:+ e)]).
Proof.
  rewrite saveDisk_spec. destruct w as [fs o q c t]. simpl.
  intros Hsrc [= <- <-]. unfold events, fs_Rename. simpl.
  rewrite <- app_assoc, drop_app_length. simpl.
  destruct (fs !! sourceDisk) as [[|]|] eqn:E; simpl;
    [destruct (Rename_ok env); simpl | done |].
  - by left.
  - right. eexists. eauto.
  - right. eexists. eauto.
Qed.

Lemma saveDisk_all_or_nothing_witness :
  let w := set_fs {[ "/tmp/d/disk" := File ]} world0 in
  let w' := (saveDisk env_ok "/tmp/d/disk" "/srv/disk" w).2 in
  w_fs w' = {[ "/srv/disk" := File ]}.
Proof.
  intros w w'.
  destruct (saveDisk_all_or_nothing env_ok "/tmp/d/disk" "/srv/disk" w w'
              (Ok tt)) as [(_ & _ & _ & H & _) | (e & He & _)].
  - discriminate.
  - vm_compute; reflexivity.
  - rewrite H. vm_compute; reflexivity.
  - discriminate He.
Defined.

Lemma fs_Remove_lookup_ne (x p : string) (m : gmap string node) :
  x ≠ p → (fs_Remove p m).2 !! x = m !! x.
Proof.
  intros Hne. unfold fs_Remove.
  destruct (m !! p) as [[|]|]; simpl; [| destruct (has_children p m); simpl |];
    rewrite ?lookup_delete_ne; done.
Qed.

Lemma fs_Remove_file_gone (p : string) (m : gmap string node) :
  m !! p ≠ Some Dir → (fs_Remove p m).2 !! p = None.
Proof.
  intros H. unfold fs_Remove.
  destruct (m !! p) as [[|]|] eqn:E; simpl; [apply lookup_delete_eq | done | done].
Qed.

(** X10. After the closure every orchestration defers, the temporary disk
    file is gone, whether or not an output path was given and whether or
    not the relocation worked: [os.Remove] of the disk file follows
    [saveDisk] unconditionally. The output path holds the disk when the
    rename could be done; when it could not, the output path is as it was
    before, so the built disk is lost. *)
Theorem closure_never_keeps_the_disk (env : Env) (f parent out : string)
    (w : World) :
  w_fs w !! f = Some File → f ≠ parent →
  let w1 := (cleanup env f parent out w).2 in
  w_fs w1 !! f = None
  ∧ (out ≠ f → out ≠ parent →
     w_fs w1 !! out
     = if relocated env out then Some File else w_fs w !! out).
Proof.
  intros Hf Hne. rewrite cleanup_spec. destruct w as [fs o q c t].
  simpl in *. unfold cleanup_fs, relocated.
  split.
  - rewrite fs_Remove_lookup_ne by done. apply fs_Remove_file_gone.
    destruct (String.eqb out ""); [by rewrite Hf |].
    unfold fs_Rename. rewrite Hf.
    destruct (Rename_ok env); simpl; [| by rewrite Hf].
    destruct (decide (out = f)) as [-> | Ho].
    + by rewrite lookup_insert_eq.
    + by rewrite lookup_insert_ne, lookup_delete_eq.
  - intros Hof Hop. rewrite !fs_Remove_lookup_ne by done.
    destruct (String.eqb out ""); [done |].
    unfold fs_Rename. rewrite Hf.
    destruct (Rename_ok env); simpl; [apply lookup_insert_eq | done].
Qed.

Lemma closure_never_keeps_the_disk_witness :
  let f := "/tmp/qemu-a1b2c3d4e5/vorteil.disk042" in
  let parent := "/tmp/qemu-a1b2c3d4e5" in
  let w := {| w_fs := {[parent := Dir; f := File]}; w_open := {[f]};
              w_ips := None; w_cfg := cfg_two_nics; w_trace := [] |} in
  let w1 := (cleanup (with_Rename_ok false env_ok) f parent "/srv/disk" w).2 in
  w_fs w1 !! f = None ∧ w_fs w1 !! "/srv/disk" = None.
Proof.
  intros f parent w w1.
  destruct (closure_never_keeps_the_disk (with_Rename_ok false env_ok) f
              parent "/srv/disk" w) as [H1 H2].
  - reflexivity.
  - discriminate.
  - split; [exact H1 |]. apply H2; discriminate.
Defined.

(** ** Errors, handles and the queue in the orchestrations *)

(** X11. [runVMware], [runHyperV], [runVirtualBox] and [runQEMU], on a host
    where the backend can be used, return the error of the first step that
    fails, in the order: [os.MkdirAll], creation of the disk file,
    [vdisk.Build], [f.Close], [pkgReader.Close], [virt.Initialize],
    [vcfg.WithDefaults], [run]; and nil when none fails. The virtualizer is
    started exactly when every step before [run] has succeeded. *)
Theorem generic_backend_returns_first_error (b : Backend) (env : Env)
    (name out : string) (w : World) :
  b ≠ Firecracker →
  supported env b && IsAvailable env b = true →
  (orchestrate b env name out w).1
  = of_error
      (first_failure
         [MkdirAll_err env; Create_err env; Build_err env; FileClose_err env;
          ReaderClose_err env; Initialize_err env;
          (WithDefaults env (w_cfg w)).2; run_err env])
  ∧ count is_Run (events w (orchestrate b env name out w).2)
    = (if first_failure
            [MkdirAll_err env; Create_err env; Build_err env;
             FileClose_err env; ReaderClose_err env; Initialize_err env;
             (WithDefaults env (w_cfg w)).2] is Some _ then 0 else 1).
Proof.
  intros Hb. unfold supported. destruct w as [fs o q c t].
  destruct b; try done; simpl.
  all: orch_run env.
  all: intros Hs; try discriminate Hs.
  all: events_norm; simpl.
  all: try (destruct (String.eqb out "")); count_norm.
  all: split; congruence.
Qed.

Lemma generic_backend_returns_first_error_witness :
  (orchestrate VMware env_no_create "vm" "" world0).1
    = Err "too many open files"
  ∧ count is_Run
      (events world0 (orchestrate VMware env_no_create "vm" "" world0).2) = 0.
Proof.
  apply (generic_backend_returns_first_error VMware env_no_create "vm" ""
           world0).
  - discriminate.
  - reflexivity.
Defined.

Lemma not_build_FetchBridgeDevice : not_build is_FetchBridgeDevice.
Proof. by intros []. Qed.

Lemma not_build_SetupBridge : not_build is_SetupBridge.
Proof. by intros []. Qed.

Lemma not_build_SetupBridge_at ip : not_build (is_SetupBridge_at ip).
Proof. by intros []. Qed.

Lemma not_build_WithDefaults : not_build is_WithDefaults.
Proof. by intros []. Qed.

Lemma not_build_Log m : not_build (is_Log m).
Proof. by intros []. Qed.

#[export] Hint Resolve not_build_FetchBridgeDevice not_build_SetupBridge
  not_build_SetupBridge_at not_build_WithDefaults not_build_Log : trace.

(** X12. [runFirecracker], on a linux host with firecracker installed, asks
    for the bridge device exactly once; [firecracker.SetupBridge] is called
    exactly when that fails, with the bridge address, and before the
    scratch directory is created. When the setup fails as well, the call
    returns the error of the setup, having made these two calls only: file
    system, handles, queue and configuration are untouched. *)
Theorem bridge_set_up_only_when_missing (env : Env) (name out : string)
    (w w' : World) (r : result unit) :
  String.eqb (GOOS env) "linux" && IsAvailable env Firecracker = true →
  runFirecracker env name out w = (r, w') →
  count is_FetchBridgeDevice (events w w') = 1
  ∧ count is_SetupBridge (events w w')
    = (if FetchBridgeDevice_err env is Some _ then 1 else 0)
  ∧ count (is_SetupBridge_at BridgeIP) (events w w')
    = count is_SetupBridge (events w w')
  ∧ in_order [is_MkdirAll; is_SetupBridge] (events w w') = false
  ∧ (∀ e, FetchBridgeDevice_err env ≠ None → SetupBridge_err env = Some e →
       r = Err e
       ∧ events w w' = [EvFetchBridgeDevice; EvSetupBridge BridgeIP]
       ∧ w_fs w' = w_fs w ∧ w_open w' = w_open w
       ∧ w_ips w' = w_ips w ∧ w_cfg w' = w_cfg w).
Proof.
  destruct w as [fs o q c t].
  orch_run env.
  all: intros Hs; try discriminate Hs.
  all: intros [= <- <-]; events_norm; simpl.
  all: try (destruct (String.eqb out "")); count_norm.
  all: rewrite ?in_order_build_events by auto with trace.
  all: repeat split; try done; congruence.
Qed.

Lemma bridge_set_up_only_when_missing_witness :
  let w' := (runFirecracker env_no_bridge "vm" "" world0).2 in
  (runFirecracker env_no_bridge "vm" "" world0).1
    = Err "operation not permitted"
  ∧ events world0 w' = [EvFetchBridgeDevice; EvSetupBridge "10.26.10.1"]
  ∧ w_fs w' = ∅.
Proof.
  intros w'.
  destruct (bridge_set_up_only_when_missing env_no_bridge "vm" "" world0 w'
              (runFirecracker env_no_bridge "vm" "" world0).1)
    as (_ & _ & _ & _ & H).
  - reflexivity.
  - vm_compute; reflexivity.
  - destruct (H "operation not permitted") as (H1 & H2 & H3 & _).
    + discriminate.
    + reflexivity.
    + split; [exact H1 |]. split; [exact H2 | exact H3].
Defined.

Lemma open_after_close (f : string) (o : gset string) :
  ({[f]} ∪ o) ∖ {[f]} = o ∖ {[f]}.
Proof.
  rewrite difference_union_distr_l_L, difference_diag_L.
  apply (left_id_L ∅ (∪)).
Qed.

(** X13. No orchestration leaves a file handle open: on every exit path the
    handles open at return are among those open at the start; once the disk
    file was created its handle is released at return, also when the build
    or a later step fails; and when no file was created the set of open
    handles is unchanged. *)
Theorem file_handle_released_on_every_exit (b : Backend) (env : Env)
    (name out : string) (w w' : World) (r : result unit) :
  orchestrate b env name out w = (r, w') →
  w_open w' ⊆ w_open w
  ∧ (Create_err env = None → count is_Create (events w w') = 1 →
     w_open w' = w_open w ∖ {[disk_file env b]})
  ∧ (count is_Create (events w w') = 0 → w_open w' = w_open w).
Proof.
  destruct w as [fs o q c t]. destruct b.
  all: orch_run env.
  all: intros [= <- <-]; events_norm; simpl.
  all: try (destruct (String.eqb out "")); count_norm.
  all: rewrite ?open_after_two_closes, ?open_after_close.
  all: repeat split; try done; try congruence.
  all: apply subseteq_difference_l; done.
Qed.

Lemma file_handle_released_on_every_exit_witness :
  let w := set_open {[ "/dev/stdin" ]} world0 in
  let w' := (orchestrate Firecracker env_one_address "vm" "" w).2 in
  (orchestrate Firecracker env_one_address "vm" "" w).1 = Err ErrEmpty
  ∧ w_open w' ⊆ {[ "/dev/stdin" ]}.
Proof.
  intros w w'. split; [vm_compute; reflexivity |].
  apply (file_handle_released_on_every_exit Firecracker env_one_address "vm"
           "" w w' (Err ErrEmpty)).
  vm_compute; reflexivity.
Defined.

(** X14. Only the firecracker orchestration uses the address queue. On every
    exit path of [runVMware], [runHyperV], [runVirtualBox] and [runQEMU]
    the variable [ips] is as it was, the queue was neither opened nor
    dequeued, and the configuration is either untouched or what
    [vcfg.WithDefaults] made of it: no address is written into the
    interfaces, however many are declared. *)
Theorem generic_backends_leave_queue_alone (b : Backend) (env : Env)
    (name out : string) (w w' : World) (r : result unit) :
  b ≠ Firecracker →
  orchestrate b env name out w = (r, w') →
  w_ips w' = w_ips w
  ∧ count is_NewIPStack (events w w') = 0
  ∧ count is_Dequeue (events w w') = 0
  ∧ (w_cfg w' = w_cfg w ∨ w_cfg w' = (WithDefaults env (w_cfg w)).1).
Proof.
  intros Hb. destruct w as [fs o q c t]. destruct b; try done.
  all: orch_run env.
  all: intros [= <- <-]; events_norm; simpl.
  all: try (destruct (String.eqb out "")); count_norm.
  all: repeat split; auto.
Qed.

Lemma generic_backends_leave_queue_alone_witness :
  let w' := (orchestrate QEMU env_ok "vm" "" world0).2 in
  w_ips w' = None ∧ count is_Dequeue (events world0 w') = 0.
Proof.
  intros w'.
  destruct (generic_backends_leave_queue_alone QEMU env_ok "vm" "" world0 w'
              (Ok tt)) as (H1 & _ & H2 & _).
  - discriminate.
  - vm_compute; reflexivity.
  - split; [exact H1 | exact H2].
Defined.

(** ** The calls on the virtualizer *)

Lemma own_call_build_events (env : Env) (b : Backend) (name : string)
    (t : list Event) :
  forallb build_event t = true → Forall (own_call env b name) t.
Proof.
  induction t as [|e t IH]; [constructor |].
  intros [He Ht]%andb_true_iff. constructor; [by destruct e | auto].
Qed.

Ltac own_call_here :=
  try unfold own_call; try unfold backend_config;
  repeat match goal with H : flagGUI _ = _ |- _ => rewrite H end;
  done.

Ltac own_calls :=
  repeat match goal with
  | |- Forall _ [] => constructor
  | |- Forall _ (_ :: _) => apply Forall_cons; split; [own_call_here |]
  | |- Forall _ (_ ++ _) => apply Forall_app; split
  | |- Forall _ _ => apply own_call_build_events; assumption
  end.

(** X15. On every exit path, every call an orchestration makes on a
    virtualizer is a call on the virtualizer of its own backend:
    [Initialize] receives the configuration of that backend (VMware and
    VirtualBox: [Headless = !flagGUI] and NAT networking; Hyper-V:
    [Headless = !flagGUI] on the default switch; QEMU:
    [Headless = !flagGUI]; firecracker: the empty configuration), and [run]
    receives the disk file created in the scratch directory and the name
    given by the caller. The virtualizer is allocated, initialized and
    started at most once. *)
Theorem virtualizer_gets_its_own_configuration (b : Backend) (env : Env)
    (name out : string) (w w' : World) (r : result unit) :
  orchestrate b env name out w = (r, w') →
  Forall (own_call env b name) (events w w')
  ∧ count is_Alloc (events w w') ≤ 1
  ∧ count is_Initialize (events w w') ≤ 1
  ∧ count is_Run (events w w') ≤ 1.
Proof.
  destruct w as [fs o q c t]. destruct b.
  all: orch_run env.
  all: intros [= <- <-]; events_norm; simpl.
  all: try (destruct (String.eqb out "")); count_norm.
  all: split; [own_calls | lia].
Qed.

Lemma virtualizer_gets_its_own_configuration_witness :
  let w' := (orchestrate VirtualBox env_gui "vm" "" world0).2 in
  Forall (own_call env_gui VirtualBox "vm") (events world0 w')
  ∧ count is_Initialize (events world0 w') ≤ 1.
Proof.
  intros w'.
  destruct (virtualizer_gets_its_own_configuration VirtualBox env_gui "vm" ""
              world0 w' (Ok tt)) as (H1 & _ & H2 & _).
  - vm_compute; reflexivity.
  - split; [exact H1 | exact H2].
Defined.

(** X16. In a successful orchestration [vcfg.WithDefaults] is applied
    exactly once and before the start: in [runFirecracker] before the disk
    is built, in the four other orchestrations only after the disk was
    built and the virtualizer initialized; there the configuration at
    return is the one with the defaults. When [vcfg.WithDefaults] fails
    the virtualizer is never started and the call returns that error; in
    [runFirecracker] nothing was built, dequeued or allocated by then,
    in the other orchestrations the disk was built and the virtualizer
    initialized. *)
Theorem defaults_applied_once_before_start (b : Backend) (env : Env)
    (name out : string) (w w' : World) (r : result unit) :
  orchestrate b env name out w = (r, w') →
  (r = Ok tt →
     count is_WithDefaults (events w w') = 1
     ∧ in_order
         (if decide (b = Firecracker)
          then [is_WithDefaults; is_Build; is_Initialize; is_Run]
          else [is_Build; is_Initialize; is_WithDefaults; is_Run])
         (events w w') = true
     ∧ (b ≠ Firecracker → w_cfg w' = (WithDefaults env (w_cfg w)).1))
  ∧ (∀ e, (WithDefaults env (w_cfg w)).2 = Some e →
       count is_Run (events w w') = 0
       ∧ (count is_WithDefaults (events w w') = 1 → r = Err e)
       ∧ (b = Firecracker →
            count is_Build (events w w') = 0
            ∧ count is_Dequeue (events w w') = 0
            ∧ count is_Alloc (events w w') = 0)
       ∧ (b ≠ Firecracker →
            count is_WithDefaults (events w w') = 1 →
            count is_Build (events w w') = 1
            ∧ count is_Initialize (events w w') = 1)).
Proof.
  destruct w as [fs o q c t]. destruct b.
  all: orch_run env.
  all: intros [= <- <-]; events_norm; simpl.
  all: split; [intros [=] | intros ? [=]].
  all: try (destruct (String.eqb out "")); count_norm.
  all: repeat split; try done; try congruence.
  all: try intros _.
  all: apply (in_order_app [is_Build]); [assumption | reflexivity].
Qed.

Lemma defaults_applied_once_before_start_witness :
  let w' := (orchestrate QEMU env_bad_defaults "vm" "" world0).2 in
  (orchestrate QEMU env_bad_defaults "vm" "" world0).1
    = Err "vcfg: invalid configuration"
  ∧ count is_Initialize (events world0 w') = 1
  ∧ count is_Run (events world0 w') = 0.
Proof.
  intros w'.
  destruct (defaults_applied_once_before_start QEMU env_bad_defaults "vm" ""
              world0 w' (orchestrate QEMU env_bad_defaults "vm" "" world0).1)
    as [_ H].
  - vm_compute; reflexivity.
  - destruct (H "vcfg: invalid configuration" eq_refl) as (H1 & H2 & _ & H3).
    split; [apply H2; vm_compute; reflexivity |].
    split; [| exact H1].
    apply H3; [discriminate | vm_compute; reflexivity].
Defined.

Lemma eqb_Failed_warning (x : string) :
  String.eqb ("Failed to Copy Disk to '" +:+ x) GUI_warning = false.
Proof. reflexivity. Qed.

Lemma saveDisk_log_not_warning (out : string) (e : option error) :
  String.eqb (saveDisk_log out e) GUI_warning = false.
Proof. destruct e; [apply eqb_Failed_warning | reflexivity]. Qed.

(** X17. A request for a display does not stop [runFirecracker]. The
    warning that firecracker has no display is logged exactly when a
    display was requested and the virtualizer was allocated, once, after
    the allocation and before [Initialize]. And with or without the
    warning the call carries on from the allocation: [Initialize] is
    called once; when it succeeds the virtualizer is started once; and the
    call returns the error of [Initialize] or else what [run] returns. *)
Theorem firecracker_only_warns_about_gui (env : Env) (name out : string)
    (w w' : World) (r : result unit) :
  runFirecracker env name out w = (r, w') →
  count (is_Log GUI_warning) (events w w')
  = (if flagGUI env then count is_Alloc (events w w') else 0)
  ∧ in_order [is_Log GUI_warning; is_Alloc] (events w w') = false
  ∧ in_order [is_Initialize; is_Log GUI_warning] (events w w') = false
  ∧ (count is_Alloc (events w w') = 1 →
       r = of_error (first_failure [Initialize_err env; run_err env])
       ∧ count is_Initialize (events w w') = 1
       ∧ count is_Run (events w w')
         = (if Initialize_err env is Some _ then 0 else 1)
       ∧ in_order
           (if flagGUI env
            then [is_Alloc; is_Log GUI_warning; is_Initialize]
            else [is_Alloc; is_Initialize])
           (events w w') = true).
Proof.
  destruct w as [fs o q c t].
  orch_run env.
  all: intros [= <- <-]; events_norm; simpl.
  all: try (destruct (String.eqb out "")); count_norm.
  all: rewrite ?saveDisk_log_not_warning; simpl.
  all: rewrite ?in_order_build_events by auto with trace.
  all: simpl; rewrite ?saveDisk_log_not_warning.
  all: repeat split; try done.
Qed.

Lemma firecracker_only_warns_about_gui_witness :
  let w' := (runFirecracker env_gui "vm" "" world0).2 in
  (runFirecracker env_gui "vm" "" world0).1 = Ok tt
  ∧ count (is_Log GUI_warning) (events world0 w') = 1
  ∧ count is_Initialize (events world0 w') = 1
  ∧ count is_Run (events world0 w') = 1.
Proof.
  intros w'.
  assert (H : runFirecracker env_gui "vm" "" world0 = (Ok tt, w'))
    by (vm_compute; reflexivity).
  split; [by rewrite H |].
  destruct (firecracker_only_warns_about_gui env_gui "vm" "" world0 w'
              (Ok tt) H) as (H1 & _ & _ & H2).
  split; [rewrite H1; vm_compute; reflexivity |].
  destruct H2 as (_ & H3 & H4 & _); [vm_compute; reflexivity |].
  split; [exact H3 | exact H4].
Defined.

(** ** Firecracker, from the queue to the start *)

Lemma omap_run_config_replicate (n : nat) :
  omap run_config (replicate n EvDequeue) = [].
Proof. induction n; [done | simpl; done]. Qed.

(** X18. In a successful [runFirecracker] whose allocator supplies every
    interface of the configuration with defaults, the one call of [run]
    receives the configuration in which interface [i] carries the [i]-th
    address of the queue, the bridge address as gateway and the mask
    255.255.255.0, and whose kernel is the kernel the build used; the same
    configuration is left behind the pointer [cfg], and one address per
    interface was dequeued. *)
Theorem firecracker_starts_with_assigned_addresses (env : Env)
    (name out : string) (w w' : World) (l : list string) :
  allocator env w = Some l →
  length (Networks (WithDefaults env (w_cfg w)).1) ≤ length l →
  runFirecracker env name out w = (Ok tt, w') →
  let c1 := (WithDefaults env (w_cfg w)).1 in
  let cfg' :=
    mkVCFG (zip_with resolve (take (length (Networks c1)) l) (Networks c1))
           (mkVMSettings (KernelUsed env)) in
  w_cfg w' = cfg'
  ∧ omap run_config (events w w') = [cfg']
  ∧ count is_Dequeue (events w w') = length (Networks c1).
Proof.
  destruct w as [fs o q c t]. intros Hal Hle. simpl in Hle.
  assert (Hzip : resolve_from 0
                   (take (length (Networks (WithDefaults env c).1)) l)
                   (Networks (WithDefaults env c).1)
                 = zip_with resolve
                     (take (length (Networks (WithDefaults env c).1)) l)
                     (Networks (WithDefaults env c).1)).
  { rewrite resolve_from_zip, length_take.
    replace (length (Networks (WithDefaults env c).1) `min` length l)
      with (length (Networks (WithDefaults env c).1)) by lia.
    rewrite (take_ge (Networks (WithDefaults env c).1)),
      (drop_ge (Networks (WithDefaults env c).1)) by lia.
    apply app_nil_r. }
  orch_unfold.
  repeat (simpl;
    first
      [ match goal with
        | |- context [buildFirecracker env ?f ?W] =>
            rewrite (buildFirecracker_supplied env f W l Hal Hle);
            unfold build_result, build_steps, builder_release;
            destruct (CreateBuilder_err env) eqn:?;
            [| destruct (NegotiateSize_err env) eqn:?]
        end
      | orch_step env ]).
  all: simpl; unfold run_deferred; simpl; rewrite ?cleanup_spec; world_simpl.
  all: intros [= <-]; events_norm; simpl.
  all: rewrite Hzip.
  all: destruct (creates_queue _); destruct (String.eqb out ""); simpl.
  all: rewrite ?omap_app, ?omap_run_config_replicate, ?count_app,
         ?count_replicate_Dequeue; simpl.
  all: repeat split; try done; lia.
Qed.

Lemma firecracker_starts_with_assigned_addresses_witness :
  let w' := (runFirecracker env_ok "vm" "" world0).2 in
  w_cfg w'
  = {| Networks :=
         [mkNetworkInterface "10.26.10.2" "10.26.10.1" "255.255.255.0" 1500;
          mkNetworkInterface "10.26.10.3" "10.26.10.1" "255.255.255.0" 1500];
       VM := {| Kernel := "21.3.1" |} |}
  ∧ omap run_config (events world0 w') = [w_cfg w'].
Proof.
  intros w'.
  destruct (firecracker_starts_with_assigned_addresses env_ok "vm" "" world0
              w' ["10.26.10.2"; "10.26.10.3"; "10.26.10.4"])
    as (H1 & H2 & _).
  - reflexivity.
  - simpl. lia.
  - vm_compute; reflexivity.
  - split; [exact H1 |]. rewrite H2, H1. reflexivity.
Defined.

(** An orchestration that reaches the build with a closed queue in [ips]
    and a declared network fails there. *)
Lemma runFirecracker_closed_queue (env : Env) (name out : string) (w : World)
    (l : list string) :
  w_ips w = Some (mkQueue l false) →
  Networks (WithDefaults env (w_cfg w)).1 ≠ [] →
  (WithDefaults env (w_cfg w)).2 = None →
  String.eqb (GOOS env) "linux" && IsAvailable env Firecracker = true →
  first_failure
    [if FetchBridgeDevice_err env is Some _ then SetupBridge_err env else None;
     MkdirAll_err env; Create_err env] = None →
  (runFirecracker env name out w).1 = Err ErrDBClosed
  ∧ w_ips (runFirecracker env name out w).2 = Some (mkQueue l false).
Proof.
  destruct w as [fs o q c t]. simpl. intros -> Hn Hd Hs Hf.
  apply andb_true_iff in Hs as [Hos Hav].
  orch_unfold. simpl. rewrite Hos, Hav. simpl.
  destruct (FetchBridgeDevice_err env); simpl in *.
  all: destruct (SetupBridge_err env); simpl in *; try discriminate Hf.
  all: destruct (MkdirAll_err env); simpl in *; try discriminate Hf.
  all: destruct (Create_err env); simpl in *; try discriminate Hf.
  all: rewrite Hd; simpl.
  all: match goal with
       | |- context [buildFirecracker ?en ?f ?W] =>
           destruct (closed_queue_fails_build en f W l) as [H1 H2];
           [reflexivity
           | simpl; destruct (Networks (WithDefaults en c).1);
               [done | simpl; lia]
           | destruct (buildFirecracker en f W) as [rb [fsb ob qb cb tb]];
             simpl in H1, H2; subst rb qb ]
       end.
  all: simpl; unfold run_deferred; simpl; rewrite ?cleanup_spec; done.
Qed.

(** X19. Two firecracker orchestrations in one process: when the first one
    succeeds and has created the queue, it leaves the queue closed, with
    the addresses it did not use; a second orchestration whose
    configuration declares a network interface then fails with the
    closed-database error of the queue, although addresses remain. *)
Theorem second_firecracker_run_fails (env : Env)
    (name1 out1 name2 out2 : string) (w w1 : World) (l : list string)
    (c2 : VCFG) :
  w_ips w = None → NewIPStack env = inr l →
  0 < length (Networks (WithDefaults env (w_cfg w)).1) ≤ length l →
  runFirecracker env name1 out1 w = (Ok tt, w1) →
  Networks (WithDefaults env c2).1 ≠ [] →
  (WithDefaults env c2).2 = None →
  w_ips w1
  = Some (mkQueue (drop (length (Networks (WithDefaults env (w_cfg w)).1)) l)
            false)
  ∧ (runFirecracker env name2 out2 (set_cfg c2 w1)).1 = Err ErrDBClosed.
Proof.
  intros Hq Hl [Hpos Hle] Hrun Hn2 Hd2.
  assert (Hal : allocator env w = Some l).
  { unfold allocator. by rewrite Hq, Hl. }
  assert (Hw1 : w_ips w1
    = Some (mkQueue
              (drop (length (Networks (WithDefaults env (w_cfg w)).1)) l)
              false)
    ∧ String.eqb (GOOS env) "linux" && IsAvailable env Firecracker = true
    ∧ first_failure
        [if FetchBridgeDevice_err env is Some _ then SetupBridge_err env
         else None;
         MkdirAll_err env; Create_err env] = None).
  { revert Hrun. destruct w as [fs o q c t]. simpl in *. subst q.
    orch_unfold.
    repeat (simpl;
      first
        [ match goal with
          | |- context [buildFirecracker env ?f ?W] =>
              rewrite (buildFirecracker_supplied env f W l Hal Hle);
              unfold build_result, build_steps, builder_release, creates_queue;
              destruct (CreateBuilder_err env) eqn:?;
              [| destruct (NegotiateSize_err env) eqn:?]
          end
        | orch_step env ]).
    all: simpl; unfold run_deferred; simpl; rewrite ?cleanup_spec; world_simpl.
    all: intros [= <-]; simpl.
    all: destruct (Networks (WithDefaults env c).1); [simpl in Hpos; lia |].
    all: done. }
  destruct Hw1 as (Hq1 & Hs & Hf). split; [done |].
  destruct w1 as [fs1 o1 q1 c1 t1]. simpl in Hq1. subst q1.
  by apply (runFirecracker_closed_queue env name2 out2
              (set_cfg c2 (mkWorld fs1 o1 _ c1 t1)) _ eq_refl).
Qed.

Lemma second_firecracker_run_fails_witness :
  let w1 := (runFirecracker env_ok "vm1" "" world_one_nic).2 in
  (runFirecracker env_ok "vm1" "" world_one_nic).1 = Ok tt
  ∧ w_ips w1 = Some (mkQueue ["10.26.10.3"; "10.26.10.4"] false)
  ∧ (runFirecracker env_ok "vm2" "" (set_cfg cfg_one_nic w1)).1
    = Err ErrDBClosed.
Proof.
  intros w1.
  assert (H : runFirecracker env_ok "vm1" "" world_one_nic = (Ok tt, w1))
    by (vm_compute; reflexivity).
  split; [by rewrite H |].
  apply (second_firecracker_run_fails env_ok "vm1" "" "vm2" "" world_one_nic
           w1 ["10.26.10.2"; "10.26.10.3"; "10.26.10.4"] cfg_one_nic).
  - reflexivity.
  - reflexivity.
  - simpl. lia.
  - exact H.
  - discriminate.
  - reflexivity.
Defined.
